(** * Authentication and session lifecycle of the Rugalika backend

    A shallow embedding of [AuthService] (services/auth.service.ts), of the
    Mongoose models it works on (User, OTPCode, TokenBlacklist) and of the
    [authenticate] middleware, followed by the properties of the one-time-code
    and token-revocation flows.

    Conventions of the embedding.
    - Instants are [Z] milliseconds since the epoch, as [Date.now()] gives
      them; every service call reads the clock once ([now]).
    - A Mongo collection is the list of its documents in natural order;
      [findOne] returns the first match.  Storage itself is taken to be
      available: the only failures of [save] are schema validation and the
      unique index.
    - [Math.random] is an oracle: [sendOTPCode] receives the integer
      [Math.floor(Math.random() * 900000)] it drew.
    - The jsonwebtoken library is idealised symbolically: a signature names
      the secret that made it. *)

From Stdlib Require Import ZArith List String Ascii Bool Lia.
From Stdlib Require Import DecimalString DecimalPos DecimalZ.
Import ListNotations.
Open Scope string_scope.
Open Scope list_scope.
Open Scope Z_scope.

(** ** JavaScript primitives *)

Module Js.

(** The range of instants a [Date] can hold; outside of it [new Date(ms)]
    is an Invalid Date. *)
Definition MAX_TIME : Z := 8640000000000000.

Definition validDate (ms : Z) : bool :=
  (- MAX_TIME <=? ms) && (ms <=? MAX_TIME).

Definition lowerChar (c : ascii) : ascii :=
  let n := nat_of_ascii c in
  if (65 <=? n)%nat && (n <=? 90)%nat then ascii_of_nat (n + 32) else c.

(** [String.prototype.toLowerCase], on the ASCII letters. *)
Fixpoint toLowerCase (s : string) : string :=
  match s with
  | EmptyString => EmptyString
  | String c r => String (lowerChar c) (toLowerCase r)
  end.

Definition isSpace (c : ascii) : bool :=
  let n := nat_of_ascii c in
  (n =? 32)%nat || ((9 <=? n)%nat && (n <=? 13)%nat).

Fixpoint dropSpaces (l : list ascii) : list ascii :=
  match l with
  | c :: r => if isSpace c then dropSpaces r else l
  | [] => []
  end.

(** [String.prototype.trim], on the ASCII white space. *)
Definition trim (s : string) : string :=
  string_of_list_ascii
    (rev (dropSpaces (rev (dropSpaces (list_ascii_of_string s))))).

(** [Number.prototype.toString] of an integer. *)
Definition numberToString (n : Z) : string :=
  NilZero.string_of_int (Z.to_int n).

Definition isDigit (c : ascii) : bool :=
  let n := nat_of_ascii c in (48 <=? n)%nat && (n <=? 57)%nat.

(** The regular expression [/^[0-9]{6}$/]. *)
Definition sixDigits (s : string) : bool :=
  let l := list_ascii_of_string s in
  (List.length l =? 6)%nat && forallb isDigit l.

End Js.

(** ** Results of calls that may throw *)

Inductive Result (A : Type) : Type :=
| Ok (a : A)
| Throw (message : string).
Arguments Ok {A} a.
Arguments Throw {A} message.

(** ** Users *)

Inductive Role := admin | citizen.
Inductive Status := active | inactive.

Definition Status_eqb (a b : Status) : bool :=
  match a, b with active, active | inactive, inactive => true | _, _ => false end.

(** A document of the User collection, with the fields the authentication
    code reads or writes (the other profile fields are carried along
    unchanged and play no part). *)
Record IUser := {
  u_id : string;
  u_email : string;
  u_role : Role;
  u_status : Status;
  u_lastLogin : option Z;
  u_emailVerified : bool
}.

(** The schema setters of an email path ([lowercase: true, trim: true]);
    Mongoose applies them to stored values and to query filters alike.
    Letters and white space are those of ASCII: [Js.toLowerCase] and
    [Js.trim] leave every other character alone. *)
Definition castEmail (e : string) : string := Js.trim (Js.toLowerCase e).

Module User.

(** [User.findOne({ email })] *)
Definition findOne (email : string) (users : list IUser) : option IUser :=
  find (fun u => (u_email u =? castEmail email)%string) users.

(** [User.findById(id)], for an [id] that Mongoose can cast to an ObjectId
    (the ids the service signs into its tokens are the [_id] of a user, so
    they are); for any other string the query throws, which lands in the
    caller's [catch] block. *)
Definition findById (id : string) (users : list IUser) : option IUser :=
  find (fun u => (u_id u =? id)%string) users.

(** [user.save()] of a loaded document: written back under its [_id]. *)
Definition save (u : IUser) (users : list IUser) : list IUser :=
  map (fun x => if (u_id x =? u_id u)%string then u else x) users.

(** [user.toJSON()]: the document without [__v], which is not modelled. *)
Definition toJSON (u : IUser) : IUser := u.

End User.

(** ** One-time codes *)

Record IOTPCode := {
  otp_id : nat;
  otp_email : string;
  otp_code : string;
  otp_expiresAt : Z;
  otp_verified : bool;
  otp_createdAt : Z
}.

Module OTPCode.

(** The filter [{ email, verified: false }]. *)
Definition pending (email : string) (d : IOTPCode) : bool :=
  (otp_email d =? castEmail email)%string && negb (otp_verified d).

(** The filter [{ email, code, verified: false, expiresAt: { $gt: now } }]. *)
Definition usable (email code : string) (now : Z) (d : IOTPCode) : bool :=
  (otp_email d =? castEmail email)%string && (otp_code d =? code)%string
  && negb (otp_verified d) && (now <? otp_expiresAt d).

Definition findOne (email code : string) (now : Z) (docs : list IOTPCode)
  : option IOTPCode :=
  find (usable email code now) docs.

(** [OTPCode.deleteMany({ email, verified: false })] *)
Definition deleteMany (email : string) (docs : list IOTPCode) : list IOTPCode :=
  filter (fun d => negb (pending email d)) docs.

(** Schema validation of a new document: [email] required, [code] six
    digits, [expiresAt] a valid date. *)
Definition valid (d : IOTPCode) : bool :=
  negb (otp_email d =? "")%string && Js.sixDigits (otp_code d)
  && Js.validDate (otp_expiresAt d).

(** [new OTPCode({ email, code, expiresAt })]: the setters run, [verified]
    takes its default. *)
Definition create (id : nat) (email code : string) (expiresAt now : Z) : IOTPCode :=
  {| otp_id := id; otp_email := castEmail email; otp_code := code;
     otp_expiresAt := expiresAt; otp_verified := false; otp_createdAt := now |}.

(** [doc.save()] of a loaded document: written back under its [_id]. *)
Definition save (d : IOTPCode) (docs : list IOTPCode) : list IOTPCode :=
  map (fun x => if Nat.eqb (otp_id x) (otp_id d) then d else x) docs.

Definition setVerified (d : IOTPCode) : IOTPCode :=
  {| otp_id := otp_id d; otp_email := otp_email d; otp_code := otp_code d;
     otp_expiresAt := otp_expiresAt d; otp_verified := true;
     otp_createdAt := otp_createdAt d |}.

(** The TTL index on [expiresAt] ([expireAfterSeconds: 0]): a pass of the
    monitor at [now] removes the documents whose expiry has passed. *)
Definition ttl (now : Z) (docs : list IOTPCode) : list IOTPCode :=
  filter (fun d => now <? otp_expiresAt d) docs.

End OTPCode.

(** ** JSON web tokens (the jsonwebtoken library, idealised)

    A token string is either not a JWT at all, or the encoding of a payload
    together with a signature; the signature is represented by the secret it
    was made with, so that it verifies under that secret and no other. *)

Module Jwt.

Record Claims := {
  userId : string;
  email : string;
  role : option Role;
  type : string
}.

Record Payload := {
  claims : Claims;
  iat : Z;
  exp : option Z
}.

Inductive Token :=
| Opaque (raw : string)
| Signed (secret : string) (payload : Payload).

Definition Token_eq_dec (a b : Token) : {a = b} + {a <> b}.
Proof.
  repeat decide equality; (apply Z.eq_dec || apply string_dec).
Defined.

Definition Token_eqb (a b : Token) : bool :=
  if Token_eq_dec a b then true else false.

(** [jwt.sign(payload, secret, { expiresIn })]; [expiresIn] in seconds. *)
Definition sign (c : Claims) (secret : string) (expiresIn now : Z) : Token :=
  let t := now / 1000 in
  Signed secret {| claims := c; iat := t; exp := Some (t + expiresIn) |}.

(** [jwt.verify(token, secret)]: signature first, then expiry. *)
Definition verify (token : Token) (secret : string) (now : Z) : Result Payload :=
  match token with
  | Opaque _ => Throw "jwt malformed"
  | Signed k p =>
      if negb (k =? secret)%string then Throw "invalid signature"
      else match exp p with
           | Some e => if e <=? now / 1000 then Throw "jwt expired" else Ok p
           | None => Ok p
           end
  end.

(** [jwt.decode(token)]: the payload, whatever the signature. *)
Definition decode (token : Token) : option Payload :=
  match token with
  | Opaque _ => None
  | Signed _ p => Some p
  end.

End Jwt.

(** ** The token blacklist *)

Record ITokenBlacklist := {
  bl_id : nat;
  bl_token : Jwt.Token;
  bl_expiresAt : Z;
  bl_createdAt : Z
}.

Module TokenBlacklist.

Inductive SaveError := ValidationError | DuplicateKey.

(** [error.code]: 11000 is Mongo's duplicate-key error. *)
Definition code (e : SaveError) : option Z :=
  match e with DuplicateKey => Some 11000 | ValidationError => None end.

Definition hasToken (t : Jwt.Token) (d : ITokenBlacklist) : bool :=
  Jwt.Token_eqb (bl_token d) t.

(** [new TokenBlacklist({ token, expiresAt }).save()]: validation, then
    the insert under the unique index on [token]. *)
Definition save (d : ITokenBlacklist) (docs : list ITokenBlacklist)
  : list ITokenBlacklist + SaveError :=
  if negb (Js.validDate (bl_expiresAt d)) then inr ValidationError
  else if existsb (hasToken (bl_token d)) docs then inr DuplicateKey
  else inl (docs ++ [d]).

(** [TokenBlacklist.findOne({ token, expiresAt: { $gt: now } })] *)
Definition findOne (t : Jwt.Token) (now : Z) (docs : list ITokenBlacklist)
  : option ITokenBlacklist :=
  find (fun d => hasToken t d && (now <? bl_expiresAt d)) docs.

(** [TokenBlacklist.deleteMany({ expiresAt: { $lte: now } })]; a pass of
    the TTL monitor does the same. *)
Definition deleteExpired (now : Z) (docs : list ITokenBlacklist)
  : list ITokenBlacklist :=
  filter (fun d => negb (bl_expiresAt d <=? now)) docs.

End TokenBlacklist.

(** ** The database *)

Record Db := {
  users : list IUser;
  otpCodes : list IOTPCode;
  tokenBlacklist : list ITokenBlacklist;
  nextId : nat   (* the next fresh [_id] *)
}.

Definition emptyDb (us : list IUser) : Db :=
  {| users := us; otpCodes := []; tokenBlacklist := []; nextId := 0 |}.

Definition setUsers (us : list IUser) (db : Db) : Db :=
  {| users := us; otpCodes := otpCodes db;
     tokenBlacklist := tokenBlacklist db; nextId := nextId db |}.

Definition setOtpCodes (l : list IOTPCode) (db : Db) : Db :=
  {| users := users db; otpCodes := l;
     tokenBlacklist := tokenBlacklist db; nextId := nextId db |}.

Definition insertOtpCode (d : IOTPCode) (db : Db) : Db :=
  {| users := users db; otpCodes := otpCodes db ++ [d];
     tokenBlacklist := tokenBlacklist db; nextId := S (nextId db) |}.

Definition insertedBlacklist (l : list ITokenBlacklist) (db : Db) : Db :=
  {| users := users db; otpCodes := otpCodes db;
     tokenBlacklist := l; nextId := S (nextId db) |}.

Definition setBlacklist (l : list ITokenBlacklist) (db : Db) : Db :=
  {| users := users db; otpCodes := otpCodes db;
     tokenBlacklist := l; nextId := nextId db |}.

(** ** AuthService *)

(** A constructed service: the constructor has checked that both secrets are
    present.  The life spans are in seconds (what the configured '24h' and
    '7d' denote). *)
Record AuthService := {
  jwtSecret : string;
  jwtRefreshSecret : string;
  jwtExpire : Z;
  jwtRefreshExpire : Z
}.

(** The constructor, from the environment variables. *)
Definition constructor (JWT_SECRET JWT_REFRESH_SECRET : string)
    (JWT_EXPIRE JWT_REFRESH_EXPIRE : option Z) : Result AuthService :=
  if (JWT_SECRET =? "")%string || (JWT_REFRESH_SECRET =? "")%string
  then Throw "JWT secrets are not configured"
  else Ok {| jwtSecret := JWT_SECRET;
             jwtRefreshSecret := JWT_REFRESH_SECRET;
             jwtExpire := match JWT_EXPIRE with Some s => s | None => 24 * 3600 end;
             jwtRefreshExpire :=
               match JWT_REFRESH_EXPIRE with Some s => s | None => 7 * 24 * 3600 end |}.

(** The envelope [{ success, message }]. *)
Record Outcome := {
  o_success : bool;
  o_message : string
}.

(** [IAuthResponse] of types/index.ts. *)
Record IAuthResponse := {
  success : bool;
  token : option Jwt.Token;
  user : option IUser;
  message : option string
}.

Definition authFailure (m : string) : IAuthResponse :=
  {| success := false; token := None; user := None; message := Some m |}.

Definition generateAccessToken (svc : AuthService) (now : Z) (u : IUser) : Jwt.Token :=
  Jwt.sign {| Jwt.userId := u_id u; Jwt.email := u_email u;
              Jwt.role := Some (u_role u); Jwt.type := "access" |}
           (jwtSecret svc) (jwtExpire svc) now.

Definition generateRefreshToken (svc : AuthService) (now : Z) (u : IUser) : Jwt.Token :=
  Jwt.sign {| Jwt.userId := u_id u; Jwt.email := u_email u;
              Jwt.role := None; Jwt.type := "refresh" |}
           (jwtRefreshSecret svc) (jwtRefreshExpire svc) now.

Definition verifyAccessToken (svc : AuthService) (now : Z) (t : Jwt.Token)
  : Result Jwt.Payload :=
  match Jwt.verify t (jwtSecret svc) now with
  | Ok p => Ok p
  | Throw _ => Throw "Invalid or expired token"
  end.

Definition verifyRefreshToken (svc : AuthService) (now : Z) (t : Jwt.Token)
  : Result Jwt.Payload :=
  match Jwt.verify t (jwtRefreshSecret svc) now with
  | Ok p => Ok p
  | Throw _ => Throw "Invalid or expired refresh token"
  end.

(** The code drawn by [Math.floor(100000 + Math.random() * 900000).toString()],
    [k] being the integer part of [Math.random() * 900000]. *)
Definition generateCode (k : Z) : string := Js.numberToString (100000 + k).

(** [sendOTPCode(email)].  The call to the email service comes last; its
    result is ignored and it touches no collection. *)
Definition sendOTPCode (now k : Z) (email : string) (db : Db)
  : Db * Result Outcome :=
  match User.findOne (Js.toLowerCase email) (users db) with
  | None =>
      (db, Ok {| o_success := false;
                 o_message := "No account found with this email address" |})
  | Some user =>
      if negb (Status_eqb (u_status user) active) then
        (db, Ok {| o_success := false;
                   o_message := "Account is inactive. Please contact administrator." |})
      else
        let db1 := setOtpCodes (OTPCode.deleteMany email (otpCodes db)) db in
        let code := generateCode k in
        let expiresAt := now + 5 * 60 * 1000 in
        let otpCode := OTPCode.create (nextId db1) email code expiresAt now in
        if OTPCode.valid otpCode then
          (insertOtpCode otpCode db1,
           Ok {| o_success := true;
                 o_message := "OTP code sent to your email address" |})
        else (db1, Throw "Failed to send OTP code")
  end.

Definition touchLogin (now : Z) (u : IUser) : IUser :=
  {| u_id := u_id u; u_email := u_email u; u_role := u_role u;
     u_status := u_status u; u_lastLogin := Some now; u_emailVerified := true |}.

(** [verifyOTPCode(email, code)] *)
Definition verifyOTPCode (svc : AuthService) (now : Z) (email code : string)
    (db : Db) : Db * IAuthResponse :=
  match OTPCode.findOne email code now (otpCodes db) with
  | None => (db, authFailure "Invalid or expired OTP code")
  | Some otpCode =>
      match User.findOne (Js.toLowerCase email) (users db) with
      | None => (db, authFailure "User not found")
      | Some user =>
          if negb (Status_eqb (u_status user) active) then
            (db, authFailure "Account is inactive")
          else
            let db1 :=
              setOtpCodes (OTPCode.save (OTPCode.setVerified otpCode) (otpCodes db)) db in
            let user := touchLogin now user in
            let db2 := setUsers (User.save user (users db1)) db1 in
            let token := generateAccessToken svc now user in
            let refreshToken := generateRefreshToken svc now user in
            (db2, {| success := true; token := Some token;
                     user := Some (User.toJSON user);
                     message := Some "Login successful" |})
      end
  end.

(** [logout(token)] *)
Definition logout (now : Z) (token : Jwt.Token) (db : Db) : Db * Outcome :=
  match Jwt.decode token with
  | None => (db, {| o_success := false; o_message := "Invalid token" |})
  | Some decoded =>
      match Jwt.exp decoded with
      | None | Some 0 => (db, {| o_success := false; o_message := "Invalid token" |})
      | Some e =>
          let expiresAt := e * 1000 in
          let blacklistedToken :=
            {| bl_id := nextId db; bl_token := token;
               bl_expiresAt := expiresAt; bl_createdAt := now |} in
          match TokenBlacklist.save blacklistedToken (tokenBlacklist db) with
          | inl docs =>
              (insertedBlacklist docs db,
               {| o_success := true; o_message := "Logout successful" |})
          | inr err =>
              match TokenBlacklist.code err with
              | Some 11000 =>
                  (db, {| o_success := true; o_message := "Logout successful" |})
              | _ => (db, {| o_success := false; o_message := "Logout failed" |})
              end
          end
      end
  end.

(** [isTokenBlacklisted(token)] *)
Definition isTokenBlacklisted (now : Z) (token : Jwt.Token) (db : Db) : bool :=
  match TokenBlacklist.findOne token now (tokenBlacklist db) with
  | Some _ => true
  | None => false
  end.

(** [getUserFromToken(token)] *)
Definition getUserFromToken (svc : AuthService) (now : Z) (token : Jwt.Token)
    (db : Db) : option IUser :=
  match verifyAccessToken svc now token with
  | Ok decoded => User.findById (Jwt.userId (Jwt.claims decoded)) (users db)
  | Throw _ => None
  end.

(** [cleanExpiredTokens()] *)
Definition cleanExpiredTokens (now : Z) (db : Db) : Db :=
  setBlacklist (TokenBlacklist.deleteExpired now (tokenBlacklist db)) db.

(** ** The [authenticate] middleware *)

(** The Authorization header: absent, not starting with ['Bearer '], or
    ['Bearer '] followed by a token string. *)
Inductive Authorization :=
| NoHeader
| NotBearer (raw : string)
| Bearer (token : Jwt.Token).

Inductive Handled :=
| Respond (status : Z) (message : string)   (* [res.status(..).json(createResponse(false, null, ..))] *)
| Next (reqUser : IUser).                   (* [req.user = user.toObject(); next()] *)

Definition authenticate (svc : AuthService) (now : Z) (authHeader : Authorization)
    (db : Db) : Handled :=
  match authHeader with
  | NoHeader | NotBearer _ => Respond 401 "Access token required"
  | Bearer token =>
      if isTokenBlacklisted now token db then Respond 401 "Token has been revoked"
      else
        match verifyAccessToken svc now token with
        | Throw _ => Respond 401 "Invalid or expired token"
        | Ok decoded =>
            match User.findById (Jwt.userId (Jwt.claims decoded)) (users db) with
            | None => Respond 401 "User not found"
            | Some user =>
                if negb (Status_eqb (u_status user) active)
                then Respond 401 "Account is inactive"
                else Next user
            end
        end
  end.

(** ** The service as a state machine

    What can happen to the database between two calls of interest: the
    calls of the service that write, a pass of Mongo's TTL monitor over both
    collections, and the rest of the application rewriting the user
    directory. *)

Inductive Event :=
| SendCode (email : string) (k : Z)
| VerifyCode (email code : string)
| Logout (token : Jwt.Token)
| CleanExpiredTokens
| TtlMonitor
| DirectoryUpdate (us : list IUser).

Definition ttlMonitor (now : Z) (db : Db) : Db :=
  {| users := users db;
     otpCodes := OTPCode.ttl now (otpCodes db);
     tokenBlacklist := TokenBlacklist.deleteExpired now (tokenBlacklist db);
     nextId := nextId db |}.

Definition step (svc : AuthService) (now : Z) (ev : Event) (db : Db) : Db :=
  match ev with
  | SendCode email k => fst (sendOTPCode now k email db)
  | VerifyCode email code => fst (verifyOTPCode svc now email code db)
  | Logout token => fst (logout now token db)
  | CleanExpiredTokens => cleanExpiredTokens now db
  | TtlMonitor => ttlMonitor now db
  | DirectoryUpdate us => setUsers us db
  end.

(** A history: events with the instants at which they happen. *)
Fixpoint run (svc : AuthService) (h : list (Z * Event)) (db : Db) : Db :=
  match h with
  | [] => db
  | (now, ev) :: h' => run svc h' (step svc now ev db)
  end.

(** The codes of [email] not yet consumed, and those among them still alive
    at [now]. *)
Definition pendingCodes (email : string) (db : Db) : list IOTPCode :=
  filter (OTPCode.pending email) (otpCodes db).


(** At most one unconsumed code per email. *)
Definition singlePending (db : Db) : Prop :=
  forall email, (List.length (pendingCodes email db) <= 1)%nat.

(** The blacklist records of a token. *)
Definition blacklistRecords (t : Jwt.Token) (db : Db) : list ITokenBlacklist :=
  filter (TokenBlacklist.hasToken t) (tokenBlacklist db).

(** The unique index on [token]. *)
Definition uniqueTokens (db : Db) : Prop :=
  forall t, (List.length (blacklistRecords t db) <= 1)%nat.

(** Every blacklist record carries the expiry its token claims. *)
Definition expiryOfToken (d : ITokenBlacklist) : Prop :=
  exists p e, Jwt.decode (bl_token d) = Some p /\ Jwt.exp p = Some e
              /\ bl_expiresAt d = e * 1000.

Definition blacklistFaithful (db : Db) : Prop :=
  Forall expiryOfToken (tokenBlacklist db).

(** The one failure [verifyOTPCode] reports for a code it cannot accept. *)
Definition invalidOrExpiredCode : IAuthResponse :=
  authFailure "Invalid or expired OTP code".

(** [ev] hands the digits [code] to [email] afresh. *)
Definition reissues (email code : string) (ev : Event) : bool :=
  match ev with
  | SendCode e k => (castEmail e =? castEmail email)%string
                    && (generateCode k =? code)%string
  | _ => false
  end.

(** ** The rest of AuthService *)

(** The result of [refreshAccessToken]: [{ success, token?, message }]. *)
Record RefreshResult := {
  r_success : bool;
  r_token : option Jwt.Token;
  r_message : string
}.

Definition refreshFailure (m : string) : RefreshResult :=
  {| r_success := false; r_token := None; r_message := m |}.

(** [refreshAccessToken(refreshToken)]: signature and expiry under the
    refresh secret first, then the blacklist, then the user. *)
Definition refreshAccessToken (svc : AuthService) (now : Z) (refreshToken : Jwt.Token)
    (db : Db) : RefreshResult :=
  match verifyRefreshToken svc now refreshToken with
  | Throw _ => refreshFailure "Failed to refresh token"
  | Ok decoded =>
      match TokenBlacklist.findOne refreshToken now (tokenBlacklist db) with
      | Some _ => refreshFailure "Refresh token is blacklisted"
      | None =>
          match User.findById (Jwt.userId (Jwt.claims decoded)) (users db) with
          | None => refreshFailure "User not found or inactive"
          | Some user =>
              if negb (Status_eqb (u_status user) active)
              then refreshFailure "User not found or inactive"
              else {| r_success := true;
                      r_token := Some (generateAccessToken svc now user);
                      r_message := "Token refreshed successfully" |}
          end
      end
  end.

(** The string a role is stored as. *)
Definition roleName (r : Role) : string :=
  match r with admin => "admin" | citizen => "citizen" end.

(** [hasRole(user, requiredRole)] *)
Definition hasRole (user : IUser) (requiredRole : string) : bool :=
  if (requiredRole =? "admin")%string
  then (roleName (u_role user) =? "admin")%string
  else (roleName (u_role user) =? requiredRole)%string
       || (roleName (u_role user) =? "admin")%string.

(** The access rules [canAccess] holds for citizens. *)
Definition citizenAccess : list (string * list string) :=
  [("news", ["read"]);
   ("feedback", ["read"; "create"]);
   ("help-request", ["create"]);
   ("profile", ["read"; "update"])].

(** The property names every object literal inherits from
    [Object.prototype]: looked up on [citizenAccess] they give a function
    (or the prototype itself), which is truthy and has no [includes]. *)
Definition inheritedKeys : list string :=
  ["constructor"; "hasOwnProperty"; "isPrototypeOf"; "propertyIsEnumerable";
   "toLocaleString"; "toString"; "valueOf"; "__proto__";
   "__defineGetter__"; "__defineSetter__"; "__lookupGetter__"; "__lookupSetter__"].

Fixpoint lookupKey {A} (k : string) (l : list (string * A)) : option A :=
  match l with
  | [] => None
  | (k', v) :: r => if (k' =? k)%string then Some v else lookupKey k r
  end.

Definition includesString (l : list string) (s : string) : bool :=
  existsb (fun x => (x =? s)%string) l.

(** [canAccess(user, resource, action = 'read')] *)
Definition canAccess (user : IUser) (resource : string) (action : option string)
  : Result bool :=
  let action := match action with Some a => a | None => "read" end in
  match u_role user with
  | admin => Ok true
  | citizen =>
      match lookupKey resource citizenAccess with
      | Some allowedActions => Ok (includesString allowedActions action)
      | None =>
          if includesString inheritedKeys resource
          then Throw "allowedActions.includes is not a function"
          else Ok false
      end
  end.

(** [generatePasswordResetToken(user)]: one hour, under the access secret. *)
Definition generatePasswordResetToken (svc : AuthService) (now : Z) (u : IUser)
  : Jwt.Token :=
  Jwt.sign {| Jwt.userId := u_id u; Jwt.email := u_email u;
              Jwt.role := None; Jwt.type := "password_reset" |}
           (jwtSecret svc) 3600 now.

(** [verifyPasswordResetToken(token)] *)
Definition verifyPasswordResetToken (svc : AuthService) (now : Z) (t : Jwt.Token)
  : Result Jwt.Payload :=
  match Jwt.verify t (jwtSecret svc) now with
  | Ok decoded =>
      if negb (Jwt.type (Jwt.claims decoded) =? "password_reset")%string
      then Throw "Invalid or expired password reset token"
      else Ok decoded
  | Throw _ => Throw "Invalid or expired password reset token"
  end.

(** ** The statics and methods of the models *)

(** [OTPCode.createOTP(email)]: the saved document, and the collection. *)
Definition createOTP (now k : Z) (email : string) (id : nat) (docs : list IOTPCode)
  : list IOTPCode * Result IOTPCode :=
  let docs1 := OTPCode.deleteMany email docs in
  let code := generateCode k in
  let expiresAt := now + 5 * 60 * 1000 in
  let otpCode := OTPCode.create id email code expiresAt now in
  if OTPCode.valid otpCode then (docs1 ++ [otpCode], Ok otpCode)
  else (docs1, Throw "OTPCode validation failed").

(** [OTPCode.verifyCode(email, code)]: the document it consumed, or null. *)
Definition verifyCode (now : Z) (email code : string) (docs : list IOTPCode)
  : list IOTPCode * option IOTPCode :=
  match OTPCode.findOne email code now docs with
  | None => (docs, None)
  | Some otpCode =>
      (OTPCode.save (OTPCode.setVerified otpCode) docs,
       Some (OTPCode.setVerified otpCode))
  end.

(** [otpCode.isExpired()] *)
Definition isExpired (now : Z) (d : IOTPCode) : bool := otp_expiresAt d <? now.

(** [otpCode.verify()] *)
Definition verifyMethod (now : Z) (d : IOTPCode) (docs : list IOTPCode)
  : list IOTPCode * Result IOTPCode :=
  if isExpired now d then (docs, Throw "OTP code has expired")
  else (OTPCode.save (OTPCode.setVerified d) docs, Ok (OTPCode.setVerified d)).

(** [TokenBlacklist.blacklistToken(token, expiresAt)]: the saved document,
    null when the token was listed already; other errors are rethrown. *)
Definition blacklistToken (now : Z) (token : Jwt.Token) (expiresAt : Z) (id : nat)
    (docs : list ITokenBlacklist)
  : list ITokenBlacklist * Result (option ITokenBlacklist) :=
  let blacklistedToken :=
    {| bl_id := id; bl_token := token;
       bl_expiresAt := expiresAt; bl_createdAt := now |} in
  match TokenBlacklist.save blacklistedToken docs with
  | inl docs' => (docs', Ok (Some blacklistedToken))
  | inr err =>
      match TokenBlacklist.code err with
      | Some 11000 => (docs, Ok None)
      | _ => (docs, Throw "TokenBlacklist validation failed")
      end
  end.

(** [TokenBlacklist.cleanExpired()]: what is left, and [deletedCount]. *)
Definition cleanExpired (now : Z) (docs : list ITokenBlacklist)
  : list ITokenBlacklist * nat :=
  (TokenBlacklist.deleteExpired now docs,
   List.length (filter (fun d => bl_expiresAt d <=? now) docs)).

(** ** The other middleware of auth.middleware.ts *)

(** What a middleware that only guards does with a request. *)
Inductive Passed :=
| Refuse (status : Z) (message : string)
| Continue.

(** [optionalAuth]: it always calls [next()]; the result is the user it
    attaches to the request, if any. *)
Definition optionalAuth (svc : AuthService) (now : Z) (authHeader : Authorization)
    (db : Db) : option IUser :=
  match authHeader with
  | NoHeader | NotBearer _ => None
  | Bearer token =>
      if isTokenBlacklisted now token db then None
      else
        match verifyAccessToken svc now token with
        | Throw _ => None
        | Ok decoded =>
            match User.findById (Jwt.userId (Jwt.claims decoded)) (users db) with
            | Some user => if Status_eqb (u_status user) active then Some user else None
            | None => None
            end
        end
  end.

(** [authorize(...roles)] *)
Definition authorize (roles : list string) (reqUser : option IUser) : Passed :=
  match reqUser with
  | None => Refuse 401 "Authentication required"
  | Some user =>
      if existsb (hasRole user) roles then Continue
      else Refuse 403 "Insufficient permissions"
  end.

(** [adminOnly] *)
Definition adminOnly (reqUser : option IUser) : Passed :=
  match reqUser with
  | None => Refuse 401 "Authentication required"
  | Some user =>
      if negb (roleName (u_role user) =? "admin")%string
      then Refuse 403 "Admin access required"
      else Continue
  end.

(** [checkPermission(resource, action = 'read')]; an exception of
    [canAccess] is not caught. *)
Definition checkPermission (resource : string) (action : option string)
    (reqUser : option IUser) : Result Passed :=
  let action := match action with Some a => a | None => "read" end in
  match reqUser with
  | None => Ok (Refuse 401 "Authentication required")
  | Some user =>
      match canAccess user resource (Some action) with
      | Throw m => Throw m
      | Ok true => Ok Continue
      | Ok false =>
          Ok (Refuse 403 ("Permission denied for " ++ action ++ " on " ++ resource)%string)
      end
  end.






(** ** The handlers of auth.controller.ts *)

(** A JSON response: the status and the body [createResponse] builds. *)
Record HttpResponse := {
  status : Z;
  body_success : bool;
  body_token : option Jwt.Token;
  body_user : option IUser;
  body_message : string
}.

Definition reply (st : Z) (ok : bool) (m : string) : HttpResponse :=
  {| status := st; body_success := ok; body_token := None; body_user := None;
     body_message := m |}.

(** [authController.sendOTPCode].  The handler awaits its own lookup of the
    user and then the service, which looks the user up again: [db] is the
    database as the handler reads it and [later] the database as the service
    finds it (the same one when no other request comes in between).  An
    exception of the service goes to the error handler. *)
Definition sendOTPCodeHandler (now k : Z) (email : string) (db later : Db)
  : Db * Result HttpResponse :=
  match User.findOne (Js.toLowerCase email) (users db) with
  | None => (db, Ok (reply 404 false "No account found with this email address"))
  | Some user =>
      if negb (Status_eqb (u_status user) active) then
        (db, Ok (reply 403 false "Account is inactive. Please contact administrator."))
      else
        match sendOTPCode now k email later with
        | (db', Ok result) =>
            if o_success result then (db', Ok (reply 200 true (o_message result)))
            else (db', Ok (reply 400 false (o_message result)))
        | (db', Throw m) => (db', Throw m)
        end
  end.

Definition messageOf (m : option string) : string :=
  match m with Some s => s | None => "" end.

(** [authController.verifyOTPCode] *)
Definition verifyOTPCodeHandler (svc : AuthService) (now : Z) (email code : string)
    (db : Db) : Db * HttpResponse :=
  let (db', result) := verifyOTPCode svc now email code db in
  if success result then
    (db', {| status := 200; body_success := true; body_token := token result;
             body_user := user result; body_message := messageOf (message result) |})
  else (db', reply 401 false (messageOf (message result))).

(** [authController.logout] *)
Definition logoutHandler (now : Z) (authHeader : Authorization) (db : Db)
  : Db * HttpResponse :=
  match authHeader with
  | NoHeader | NotBearer _ => (db, reply 400 false "No token provided")
  | Bearer token =>
      let (db', result) := logout now token db in
      if o_success result then (db', reply 200 true (o_message result))
      else (db', reply 400 false (o_message result))
  end.

(** The route [POST /api/auth/logout]: [authenticate], then the handler. *)
Definition logoutRoute (svc : AuthService) (now : Z) (authHeader : Authorization)
    (db : Db) : Db * HttpResponse :=
  match authenticate svc now authHeader db with
  | Respond st m => (db, reply st false m)
  | Next _ => logoutHandler now authHeader db
  end.

(** ** Vocabulary of the properties *)

(** The four ways a code can be unusable for [email] and [code] at [now]. *)
Definition neverIssued (email : string) (db : Db) : Prop :=
  forall d, In d (otpCodes db) -> otp_email d <> castEmail email.

Definition wrongCode (email code : string) (db : Db) : Prop :=
  forall d, In d (otpCodes db) -> otp_email d = castEmail email -> otp_code d <> code.

Definition expiredCode (email code : string) (now : Z) (db : Db) : Prop :=
  forall d, In d (otpCodes db) -> otp_email d = castEmail email -> otp_code d = code ->
            otp_expiresAt d <= now.

Definition consumedCode (email code : string) (db : Db) : Prop :=
  forall d, In d (otpCodes db) -> otp_email d = castEmail email -> otp_code d = code ->
            otp_verified d = true.


(** Every record for [email] and [code] is consumed, or expires by [T]. *)
Definition unusableBy (email code : string) (T : Z) (db : Db) : Prop :=
  forall d, In d (otpCodes db) ->
            otp_email d = castEmail email -> otp_code d = code ->
            otp_verified d = true \/ otp_expiresAt d <= T.

(** No event of the history issues the digits [code] to [email] afresh. *)
Definition noReissue (email code : string) (h : list (Z * Event)) : Prop :=
  Forall (fun te => reissues email code (snd te) = false) h.

Definition logoutOk : Outcome :=
  {| o_success := true; o_message := "Logout successful" |}.

(** The record [logout] makes for a token whose payload expires at [e]. *)
Definition blacklistEntry (id : nat) (t : Jwt.Token) (e now : Z) : ITokenBlacklist :=
  {| bl_id := id; bl_token := t; bl_expiresAt := e * 1000; bl_createdAt := now |}.

(** A token [logout] can revoke: it decodes, and its [exp] claim is there,
    is not zero and is an instant a [Date] can hold. *)
Definition revocable (t : Jwt.Token) (e : Z) : Prop :=
  (exists p, Jwt.decode t = Some p /\ Jwt.exp p = Some e)
  /\ e <> 0 /\ Js.validDate (e * 1000) = true.

(** What an event at [now] can do to the blacklist: nothing, drop the
    records that have expired, or add one record for a token that had none,
    carrying that token's expiry. *)
Definition blacklistChange (now : Z) (old new : list ITokenBlacklist) : Prop :=
  new = old
  \/ new = TokenBlacklist.deleteExpired now old
  \/ exists d, existsb (TokenBlacklist.hasToken (bl_token d)) old = false
               /\ expiryOfToken d
               /\ new = old ++ [d].

(** A record for [t] with the expiry [e] is on the blacklist. *)
Definition revokedUntil (t : Jwt.Token) (e : Z) (db : Db) : Prop :=
  exists d, In d (tokenBlacklist db) /\ bl_token d = t /\ bl_expiresAt d = e * 1000.

(** What [citizenAccess] allows, pair by pair. *)
Definition citizenMay : list (string * string) :=
  [("news", "read");
   ("feedback", "read"); ("feedback", "create");
   ("help-request", "create");
   ("profile", "read"); ("profile", "update")].

(** The decimal digit [v] put in front of [r], and its character. *)
Definition digit (v : Z) (r : Decimal.uint) : Decimal.uint :=
  match v with
  | 0 => Decimal.D0 r | 1 => Decimal.D1 r | 2 => Decimal.D2 r | 3 => Decimal.D3 r
  | 4 => Decimal.D4 r | 5 => Decimal.D5 r | 6 => Decimal.D6 r | 7 => Decimal.D7 r
  | 8 => Decimal.D8 r | _ => Decimal.D9 r
  end.

Definition digitChar (v : Z) : ascii := ascii_of_nat (48 + Z.to_nat v).

(** ** Sample data for the concrete runs *)

Module Sample.

Definition svc : AuthService :=
  {| jwtSecret := "access-secret"; jwtRefreshSecret := "refresh-secret";
     jwtExpire := 24 * 3600; jwtRefreshExpire := 7 * 24 * 3600 |}.

Definition alice : IUser :=
  {| u_id := "64f000000000000000000001"; u_email := "a@b.rw";
     u_role := citizen; u_status := active;
     u_lastLogin := None; u_emailVerified := false |}.

(** Alice after an administrator has deactivated her account. *)
Definition aliceInactive : IUser :=
  {| u_id := "64f000000000000000000001"; u_email := "a@b.rw";
     u_role := citizen; u_status := inactive;
     u_lastLogin := None; u_emailVerified := false |}.

(** [sendCode("a@b.rw")] at instant 0 drawing 123456. *)
Definition afterSend : Db := step svc 0 (SendCode "a@b.rw" 23456) (emptyDb [alice]).

(** The code record that run creates. *)
Definition issued : IOTPCode :=
  {| otp_id := 0; otp_email := "a@b.rw"; otp_code := "123456";
     otp_expiresAt := 300000; otp_verified := false; otp_createdAt := 0 |}.

(** The same, with the account deactivated before the code is entered. *)
Definition afterDeactivation : Db := setUsers [aliceInactive] afterSend.

(** The same, with the account deleted before the code is entered. *)
Definition afterRemoval : Db := setUsers [] afterSend.

(** Alice's session one second after the code was sent. *)
Definition afterLogin : Db := step svc 1000 (VerifyCode "a@b.rw" "123456") afterSend.

Definition accessToken : Jwt.Token := generateAccessToken svc 1000 alice.

(** A well-formed JWT without an [exp] claim (signed without [expiresIn]). *)
Definition eternalToken : Jwt.Token :=
  Jwt.Signed "access-secret"
    {| Jwt.claims := {| Jwt.userId := "64f000000000000000000001";
                        Jwt.email := "a@b.rw"; Jwt.role := Some citizen;
                        Jwt.type := "access" |};
       Jwt.iat := 1; Jwt.exp := None |}.


(** What happens after the login: a wrong guess, a code for Alice with
    other digits, a pass of the TTL monitor. *)
Definition aftermath : list (Z * Event) :=
  [(2000, VerifyCode "a@b.rw" "000000");
   (3000, SendCode "a@b.rw" 777);
   (4000, TtlMonitor)].

(** Alice logs out two seconds after the code was sent. *)
Definition afterLogout : Db := step svc 2000 (Logout accessToken) afterLogin.

(** Her account is deactivated after that. *)
Definition afterLogoutInactive : Db := setUsers [aliceInactive] afterLogout.

(** The payload of Alice's access token: issued at second 1, expiring a
    day later. *)
Definition accessPayload : Jwt.Payload :=
  {| Jwt.claims := {| Jwt.userId := "64f000000000000000000001";
                      Jwt.email := "a@b.rw"; Jwt.role := Some citizen;
                      Jwt.type := "access" |};
     Jwt.iat := 1; Jwt.exp := Some 86401 |}.

(** Purges running after the logout. *)
Definition purges : list (Z * Event) :=
  [(2500, TtlMonitor); (2600, CleanExpiredTokens)].


(** A password-reset token for Alice, made at the same instant. *)
Definition resetToken : Jwt.Token := generatePasswordResetToken svc 1000 alice.

(** Alice as the login leaves her in the directory. *)
Definition aliceLoggedIn : IUser := touchLogin 1000 alice.

(** Alice's refresh token, as the login prepares it. *)
Definition refreshTokenOfLogin : Jwt.Token := generateRefreshToken svc 1000 aliceLoggedIn.


Definition resetPayload : Jwt.Payload :=
  {| Jwt.claims := {| Jwt.userId := "64f000000000000000000001";
                      Jwt.email := "a@b.rw"; Jwt.role := None;
                      Jwt.type := "password_reset" |};
     Jwt.iat := 1; Jwt.exp := Some 3601 |}.



(** The record of Alice's code once consumed. *)
Definition consumed : IOTPCode := OTPCode.setVerified issued.


(** After her login Alice asks for a code again and the draw is the same. *)
Definition reissue : list (Z * Event) := [(2000, SendCode "a@b.rw" 23456)].

(** Alice lets her first code expire, asks again 400 seconds after it was
    sent, and the draw is the same. *)
Definition reissueLate : list (Z * Event) := [(400000, SendCode "a@b.rw" 23456)].

(** Three wrong guesses at Alice's code. *)
Definition guesses : list (Z * string) :=
  [(100, "000000"); (200, "111111"); (300, "654321")].

End Sample.

(** * Properties *)

(** ** Lookups *)

Lemma find_all_false {A} (f : A -> bool) (l : list A) :
  (forall x, In x l -> f x = false) -> find f l = None.
Proof.
  induction l as [|a l IH]; intros H; simpl; [reflexivity|].
  rewrite (H a (or_introl eq_refl)). apply IH. intros x Hx. apply H. now right.
Qed.

Lemma filter_all_false {A} (f : A -> bool) (l : list A) :
  (forall x, In x l -> f x = false) -> filter f l = [].
Proof.
  induction l as [|a l IH]; intros H; simpl; [reflexivity|].
  rewrite (H a (or_introl eq_refl)). apply IH. intros x Hx. apply H. now right.
Qed.

Lemma Token_eqb_eq (a b : Jwt.Token) : Jwt.Token_eqb a b = true <-> a = b.
Proof.
  unfold Jwt.Token_eqb. destruct (Jwt.Token_eq_dec a b); split; congruence.
Qed.

Lemma Token_eqb_refl (a : Jwt.Token) : Jwt.Token_eqb a a = true.
Proof. now apply Token_eqb_eq. Qed.

Lemma Status_eqb_active (s : Status) : Status_eqb s active = true <-> s = active.
Proof. destruct s; simpl; split; congruence. Qed.

(** ** verifyOTPCode, case by case *)

Lemma verifyOTPCode_no_code svc now email code db :
  OTPCode.findOne email code now (otpCodes db) = None ->
  verifyOTPCode svc now email code db = (db, invalidOrExpiredCode).
Proof. intros H. unfold verifyOTPCode. now rewrite H. Qed.



Lemma verifyOTPCode_login svc now email code db d u :
  OTPCode.findOne email code now (otpCodes db) = Some d ->
  User.findOne (Js.toLowerCase email) (users db) = Some u ->
  u_status u = active ->
  verifyOTPCode svc now email code db =
    (setUsers (User.save (touchLogin now u) (users db))
       (setOtpCodes (OTPCode.save (OTPCode.setVerified d) (otpCodes db)) db),
     {| success := true;
        token := Some (generateAccessToken svc now (touchLogin now u));
        user := Some (touchLogin now u);
        message := Some "Login successful" |}).
Proof.
  intros H1 H2 H3. unfold verifyOTPCode. rewrite H1, H2, H3. reflexivity.
Qed.

(** A successful call is a login: the code, the user and the activity check
    all went through. *)
Lemma verifyOTPCode_success_inv svc now email code db db' r :
  verifyOTPCode svc now email code db = (db', r) -> success r = true ->
  exists d u,
    OTPCode.findOne email code now (otpCodes db) = Some d
    /\ User.findOne (Js.toLowerCase email) (users db) = Some u
    /\ u_status u = active.
Proof.
  unfold verifyOTPCode. intros H Hs.
  destruct (OTPCode.findOne email code now (otpCodes db)) as [d|] eqn:E1;
    [|inversion H; subst; discriminate].
  destruct (User.findOne (Js.toLowerCase email) (users db)) as [u|] eqn:E2;
    [|inversion H; subst; discriminate].
  destruct (Status_eqb (u_status u) active) eqn:E3;
    [|inversion H; subst; discriminate].
  exists d, u. repeat split. now apply Status_eqb_active.
Qed.

Lemma access_is_not_refresh svc now now' u u' :
  generateAccessToken svc now u <> generateRefreshToken svc now' u'.
Proof.
  unfold generateAccessToken, generateRefreshToken, Jwt.sign. intros H.
  injection H as _ _ _ _ Ht. discriminate.
Qed.

(** ** What a login returns *)

(** C1 (the code departs from the claim): a successful
    [verifyOTPCode(email, code)] returns exactly the access token, the
    user's profile and the message 'Login successful'.  The refresh token is
    generated but is not part of the returned value: the only token in the
    response differs from it. *)
Theorem verifyOTPCode_success_omits_refresh_token :
  forall svc now email code db,
    success (snd (verifyOTPCode svc now email code db)) = true ->
    exists u,
      snd (verifyOTPCode svc now email code db) =
        {| success := true;
           token := Some (generateAccessToken svc now u);
           user := Some u;
           message := Some "Login successful" |}
      /\ token (snd (verifyOTPCode svc now email code db))
         <> Some (generateRefreshToken svc now u).
Proof.
  intros svc now email code db Hs.
  destruct (verifyOTPCode svc now email code db) as [db' r] eqn:E.
  destruct (verifyOTPCode_success_inv _ _ _ _ _ _ _ E Hs) as (d & u & H1 & H2 & H3).
  rewrite (verifyOTPCode_login svc now email code db d u H1 H2 H3) in E.
  inversion E; subst; clear E. exists (touchLogin now u). split; [reflexivity|].
  cbn [snd token]. intros H.
  apply (access_is_not_refresh svc now now (touchLogin now u) (touchLogin now u)).
  congruence.
Qed.

Lemma verifyOTPCode_success_omits_refresh_token_witness :
  success (snd (verifyOTPCode Sample.svc 1000 "a@b.rw" "123456" Sample.afterSend)) = true
  /\ exists u,
      snd (verifyOTPCode Sample.svc 1000 "a@b.rw" "123456" Sample.afterSend) =
        {| success := true;
           token := Some (generateAccessToken Sample.svc 1000 u);
           user := Some u;
           message := Some "Login successful" |}
      /\ token (snd (verifyOTPCode Sample.svc 1000 "a@b.rw" "123456" Sample.afterSend))
         <> Some (generateRefreshToken Sample.svc 1000 u).
Proof.
  split; [vm_compute; reflexivity|].
  apply (verifyOTPCode_success_omits_refresh_token
           Sample.svc 1000 "a@b.rw" "123456" Sample.afterSend).
  vm_compute; reflexivity.
Defined.

(** ** When the code is consumed *)

Lemma findOne_usable email code now docs d :
  OTPCode.findOne email code now docs = Some d ->
  In d docs /\ otp_email d = castEmail email /\ otp_code d = code
  /\ otp_verified d = false /\ now < otp_expiresAt d.
Proof.
  intros H. apply find_some in H as [Hin Hu]. split; [exact Hin|].
  unfold OTPCode.usable in Hu.
  repeat (apply andb_true_iff in Hu as [Hu ?]).
  repeat split.
  - now apply String.eqb_eq.
  - now apply String.eqb_eq.
  - now apply negb_true_iff.
  - now apply Z.ltb_lt.
Qed.

Lemma save_keeps_member d docs :
  In d docs -> In (OTPCode.setVerified d) (OTPCode.save (OTPCode.setVerified d) docs).
Proof.
  intros H. unfold OTPCode.save. apply in_map_iff. exists d. split; [|exact H].
  simpl. now rewrite Nat.eqb_refl.
Qed.


(** The same when the account has been deleted: 'User not found', and the
    code is still there to be used. *)
Lemma verifyOTPCode_removed_keeps_code :
  verifyOTPCode Sample.svc 1000 "a@b.rw" "123456" Sample.afterRemoval
  = (Sample.afterRemoval, authFailure "User not found")
  /\ OTPCode.findOne "a@b.rw" "123456" 2000 (otpCodes Sample.afterRemoval)
     = Some Sample.issued.
Proof. split; vm_compute; reflexivity. Qed.



(** ** Access and refresh tokens do not mix *)




(** The separation rests on the secrets alone: [verifyAccessToken] does not
    look at the [type] claim, so with one secret for both kinds a fresh
    refresh token passes as an access token. *)
Lemma shared_secret_confuses_kinds svc issuedAt now u :
  jwtSecret svc = jwtRefreshSecret svc ->
  now / 1000 < issuedAt / 1000 + jwtRefreshExpire svc ->
  exists p, verifyAccessToken svc now (generateRefreshToken svc issuedAt u) = Ok p
            /\ Jwt.type (Jwt.claims p) = "refresh".
Proof.
  intros Hs Ht. unfold verifyAccessToken, generateRefreshToken, Jwt.sign, Jwt.verify.
  rewrite <- Hs, String.eqb_refl. cbn [negb Jwt.exp].
  destruct (Z.leb_spec (issuedAt / 1000 + jwtRefreshExpire svc) (now / 1000)); [lia|].
  eexists. split; reflexivity.
Qed.

(** ** One failure for every unusable code *)

Lemma usable_false_cases email code now d :
  otp_email d <> castEmail email \/ otp_code d <> code
  \/ otp_expiresAt d <= now \/ otp_verified d = true ->
  OTPCode.usable email code now d = false.
Proof.
  unfold OTPCode.usable. intros H.
  destruct (String.eqb_spec (otp_email d) (castEmail email)) as [He|He];
    [|reflexivity].
  destruct (String.eqb_spec (otp_code d) code) as [Hc|Hc]; [|reflexivity].
  destruct (otp_verified d) eqn:Hv; [reflexivity|].
  destruct (Z.ltb_spec now (otp_expiresAt d)) as [Hl|Hl]; [|reflexivity].
  destruct H as [H|[H|[H|H]]]; try contradiction; try discriminate; lia.
Qed.

(** C9: whether the code is wrong, expired, already consumed, or no code was
    ever issued for the email, [verifyOTPCode] returns one and the same
    failure value, 'Invalid or expired OTP code', and leaves the database as
    it was; nothing in the result tells the four cases apart. *)
Theorem verifyOTPCode_uniform_failure :
  forall svc now email code db,
    wrongCode email code db \/ expiredCode email code now db
    \/ consumedCode email code db \/ neverIssued email db ->
    verifyOTPCode svc now email code db = (db, invalidOrExpiredCode).
Proof.
  intros svc now email code db H. apply verifyOTPCode_no_code.
  apply find_all_false. intros d Hd. apply usable_false_cases.
  destruct (string_dec (otp_email d) (castEmail email)) as [He|He]; [|now left].
  destruct (string_dec (otp_code d) code) as [Hc|Hc]; [|now (right; left)].
  destruct H as [H|[H|[H|H]]].
  - exfalso. exact (H d Hd He Hc).
  - right; right; left. exact (H d Hd He Hc).
  - right; right; right. exact (H d Hd He Hc).
  - exfalso. exact (H d Hd He).
Qed.

Lemma verifyOTPCode_uniform_failure_witness :
  (wrongCode "a@b.rw" "000000" Sample.afterSend
   \/ expiredCode "a@b.rw" "000000" 1000 Sample.afterSend
   \/ consumedCode "a@b.rw" "000000" Sample.afterSend
   \/ neverIssued "a@b.rw" Sample.afterSend)
  /\ verifyOTPCode Sample.svc 1000 "a@b.rw" "000000" Sample.afterSend
     = (Sample.afterSend, invalidOrExpiredCode).
Proof.
  assert (H : wrongCode "a@b.rw" "000000" Sample.afterSend).
  { intros d Hd _. vm_compute in Hd. destruct Hd as [<-|[]]. vm_compute. discriminate. }
  split; [now left|].
  exact (verifyOTPCode_uniform_failure Sample.svc 1000 "a@b.rw" "000000"
           Sample.afterSend (or_introl H)).
Defined.

(** ** getUserFromToken *)

Lemma verifyAccessToken_ok svc now t p :
  Jwt.verify t (jwtSecret svc) now = Ok p -> verifyAccessToken svc now t = Ok p.
Proof. intros H. unfold verifyAccessToken. now rewrite H. Qed.

Lemma verifyAccessToken_throw svc now t m :
  Jwt.verify t (jwtSecret svc) now = Throw m ->
  verifyAccessToken svc now t = Throw "Invalid or expired token".
Proof. intros H. unfold verifyAccessToken. now rewrite H. Qed.

Lemma getUserFromToken_rejected svc now t db m :
  Jwt.verify t (jwtSecret svc) now = Throw m -> getUserFromToken svc now t db = None.
Proof.
  intros H. unfold getUserFromToken.
  now rewrite (verifyAccessToken_throw _ _ _ _ H).
Qed.

(** C10: for a token whose signature verifies under the access secret and
    whose expiry has not passed, [getUserFromToken] returns the user found
    under the token's subject id.  The blacklist has no influence on the
    result, nor has the user's status: a user found is returned as is,
    active or not.  The result is null exactly when the lookup finds nobody
    (a token that does not verify gives null as well,
    [getUserFromToken_rejected]). *)
Theorem getUserFromToken_by_subject_only :
  forall svc now t db p,
    Jwt.verify t (jwtSecret svc) now = Ok p ->
    getUserFromToken svc now t db
      = User.findById (Jwt.userId (Jwt.claims p)) (users db)
    /\ (forall bl, getUserFromToken svc now t (setBlacklist bl db)
                   = getUserFromToken svc now t db)
    /\ (forall u, User.findById (Jwt.userId (Jwt.claims p)) (users db) = Some u ->
                  forall bl, getUserFromToken svc now t (setBlacklist bl db) = Some u)
    /\ (getUserFromToken svc now t db = None <->
        User.findById (Jwt.userId (Jwt.claims p)) (users db) = None).
Proof.
  intros svc now t db p H.
  assert (E : forall db', getUserFromToken svc now t db'
                          = User.findById (Jwt.userId (Jwt.claims p)) (users db')).
  { intros db'. unfold getUserFromToken.
    now rewrite (verifyAccessToken_ok _ _ _ _ H). }
  split; [apply E|]. split; [|split].
  - intros bl. now rewrite !E.
  - intros u Hu bl. now rewrite E.
  - now rewrite E.
Qed.

Lemma getUserFromToken_null_only svc now t db :
  getUserFromToken svc now t db = None ->
  (exists m, Jwt.verify t (jwtSecret svc) now = Throw m)
  \/ (exists p, Jwt.verify t (jwtSecret svc) now = Ok p
                /\ User.findById (Jwt.userId (Jwt.claims p)) (users db) = None).
Proof.
  unfold getUserFromToken, verifyAccessToken.
  destruct (Jwt.verify t (jwtSecret svc) now) as [p|m]; intros H.
  - right. exists p. now split.
  - left. now exists m.
Qed.

(** ** At most one pending code per email *)

Section Counting.
Context {A : Type}.
Implicit Types (p q : A -> bool) (l : list A).

Lemma filter_filter_le p q l :
  (List.length (filter p (filter q l)) <= List.length (filter p l))%nat.
Proof.
  induction l as [|a l IH]; simpl; [lia|].
  destruct (q a), (p a) eqn:E; simpl; rewrite ?E; simpl; lia.
Qed.

Lemma filter_map_le p (f : A -> A) l :
  (forall x, p (f x) = true -> p x = true) ->
  (List.length (filter p (map f l)) <= List.length (filter p l))%nat.
Proof.
  intros H. induction l as [|a l IH]; simpl; [lia|].
  destruct (p (f a)) eqn:E.
  - rewrite (H a E). simpl. lia.
  - destruct (p a); simpl; lia.
Qed.

Lemma two_members x y l :
  In x l -> In y l -> x <> y -> (2 <= List.length l)%nat.
Proof.
  destruct l as [|a [|b l]]; simpl; intros Hx Hy Hn; try lia.
  destruct Hx as [<-|[]], Hy as [<-|[]]. congruence.
Qed.

Lemma filter_ext_in_eq p q l :
  (forall x, In x l -> p x = q x) -> filter p l = filter q l.
Proof.
  induction l as [|a l IH]; intros H; simpl; [reflexivity|].
  rewrite (H a (or_introl eq_refl)), IH; [reflexivity|].
  intros x Hx. apply H. now right.
Qed.
End Counting.

Lemma pending_cast e1 e2 d :
  castEmail e1 = castEmail e2 -> OTPCode.pending e1 d = OTPCode.pending e2 d.
Proof. intros H. unfold OTPCode.pending. now rewrite H. Qed.

Lemma pending_other e1 e2 d :
  castEmail e1 <> castEmail e2 -> otp_email d = castEmail e1 ->
  OTPCode.pending e2 d = false.
Proof.
  intros H He. unfold OTPCode.pending. rewrite He.
  destruct (String.eqb_spec (castEmail e1) (castEmail e2)); [contradiction|reflexivity].
Qed.

Lemma deleteMany_no_pending email docs :
  filter (OTPCode.pending email) (OTPCode.deleteMany email docs) = [].
Proof.
  apply filter_all_false. intros d Hd. unfold OTPCode.deleteMany in Hd.
  apply filter_In in Hd as [_ Hd]. now apply negb_true_iff in Hd.
Qed.

(** The three ways [sendOTPCode] can end. *)
Lemma sendOTPCode_cases now k email db :
  (fst (sendOTPCode now k email db) = db
   /\ exists m, snd (sendOTPCode now k email db)
                = Ok {| o_success := false; o_message := m |})
  \/ (fst (sendOTPCode now k email db)
      = setOtpCodes (OTPCode.deleteMany email (otpCodes db)) db
      /\ snd (sendOTPCode now k email db) = Throw "Failed to send OTP code")
  \/ (fst (sendOTPCode now k email db)
      = insertOtpCode
          (OTPCode.create (nextId db) email (generateCode k) (now + 5 * 60 * 1000) now)
          (setOtpCodes (OTPCode.deleteMany email (otpCodes db)) db)
      /\ snd (sendOTPCode now k email db)
         = Ok {| o_success := true;
                 o_message := "OTP code sent to your email address" |}).
Proof.
  unfold sendOTPCode.
  destruct (User.findOne (Js.toLowerCase email) (users db)) as [u|].
  - destruct (negb (Status_eqb (u_status u) active)).
    + left. split; [reflexivity|]. eexists. reflexivity.
    + cbn [nextId setOtpCodes].
      destruct (OTPCode.valid _).
      * right; right. split; reflexivity.
      * right; left. split; reflexivity.
  - left. split; [reflexivity|]. eexists. reflexivity.
Qed.

Lemma sendOTPCode_pending now k email db e :
  (List.length (pendingCodes e db) <= 1)%nat ->
  (List.length (pendingCodes e (fst (sendOTPCode now k email db))) <= 1)%nat.
Proof.
  intros H. unfold pendingCodes in *.
  destruct (sendOTPCode_cases now k email db) as [[E _]|[[E _]|[E _]]]; rewrite E.
  - exact H.
  - cbn [otpCodes setOtpCodes]. unfold OTPCode.deleteMany.
    etransitivity; [apply filter_filter_le|exact H].
  - cbn [otpCodes setOtpCodes insertOtpCode]. rewrite filter_app, length_app.
    destruct (string_dec (castEmail email) (castEmail e)) as [Heq|Hne].
    + rewrite (filter_ext_in_eq (OTPCode.pending e) (OTPCode.pending email))
        by (intros; now apply pending_cast).
      rewrite deleteMany_no_pending. simpl.
      destruct (OTPCode.pending e _); simpl; lia.
    + cbn [filter]. rewrite (pending_other email e) by (assumption || reflexivity).
      simpl. rewrite Nat.add_0_r. unfold OTPCode.deleteMany.
      etransitivity; [apply filter_filter_le|exact H].
Qed.

Lemma verifyOTPCode_otpCodes svc now email code db :
  otpCodes (fst (verifyOTPCode svc now email code db)) = otpCodes db
  \/ exists d, OTPCode.findOne email code now (otpCodes db) = Some d
               /\ otpCodes (fst (verifyOTPCode svc now email code db))
                  = OTPCode.save (OTPCode.setVerified d) (otpCodes db).
Proof.
  unfold verifyOTPCode.
  destruct (OTPCode.findOne email code now (otpCodes db)) as [d|]; [|now left].
  destruct (User.findOne _ _) as [u|]; [|now left].
  destruct (negb _); [now left|].
  right. exists d. split; reflexivity.
Qed.

Lemma logout_otpCodes now t db : otpCodes (fst (logout now t db)) = otpCodes db.
Proof.
  unfold logout. destruct (Jwt.decode t) as [p|]; [|reflexivity].
  destruct (Jwt.exp p) as [[|e|e]|]; try reflexivity;
    (destruct (TokenBlacklist.save _ _) as [l|[]]; reflexivity).
Qed.

Lemma step_pending svc now ev db e :
  (List.length (pendingCodes e db) <= 1)%nat ->
  (List.length (pendingCodes e (step svc now ev db)) <= 1)%nat.
Proof.
  intros H. destruct ev as [email k|email code|t| | |us]; cbn [step].
  - now apply sendOTPCode_pending.
  - unfold pendingCodes in *.
    destruct (verifyOTPCode_otpCodes svc now email code db) as [E|(d & _ & E)];
      rewrite E; [exact H|].
    etransitivity; [|exact H]. unfold OTPCode.save. apply filter_map_le.
    intros x. destruct (Nat.eqb _ _); [|trivial].
    unfold OTPCode.pending. cbn [otp_verified OTPCode.setVerified].
    rewrite andb_false_r. discriminate.
  - unfold pendingCodes. now rewrite logout_otpCodes.
  - exact H.
  - unfold pendingCodes, ttlMonitor, OTPCode.ttl in *. cbn [otpCodes].
    etransitivity; [apply filter_filter_le|exact H].
  - exact H.
Qed.

(** The invariant of the code store: it holds of the empty store and every
    event keeps it. *)
Lemma run_singlePending svc h : forall db, singlePending db -> singlePending (run svc h db).
Proof.
  induction h as [|[now ev] h IH]; intros db H; cbn [run]; [exact H|].
  apply IH. intros e. apply step_pending, H.
Qed.

Lemma emptyDb_singlePending us : singlePending (emptyDb us).
Proof. intros e. unfold pendingCodes. simpl. lia. Qed.





(** ** Codes that can no longer be used *)

Lemma unusableBy_verify svc email code T now db :
  unusableBy email code T db -> T <= now ->
  verifyOTPCode svc now email code db = (db, invalidOrExpiredCode).
Proof.
  intros H Ht. apply verifyOTPCode_no_code, find_all_false.
  intros d Hd. apply usable_false_cases.
  destruct (string_dec (otp_email d) (castEmail email)) as [He|He]; [|now left].
  destruct (string_dec (otp_code d) code) as [Hc|Hc]; [|now (right; left)].
  destruct (H d Hd He Hc) as [Hv|Hx].
  - now (right; right; right).
  - right; right; left. lia.
Qed.

Lemma in_save d x docs :
  In x (OTPCode.save (OTPCode.setVerified d) docs) ->
  x = OTPCode.setVerified d \/ (In x docs /\ otp_id x <> otp_id d).
Proof.
  unfold OTPCode.save. intros H. apply in_map_iff in H as (y & Hy & Hin).
  cbn [otp_id OTPCode.setVerified] in Hy.
  destruct (Nat.eqb_spec (otp_id y) (otp_id d)) as [E|E].
  - left. now symmetry.
  - right. subst y. now split.
Qed.

Lemma step_unusableBy svc now ev email code T db :
  reissues email code ev = false ->
  unusableBy email code T db -> unusableBy email code T (step svc now ev db).
Proof.
  intros Hr H. destruct ev as [e k|e c|t| | |us]; cbn [step].
  - intros d Hd He Hc.
    destruct (sendOTPCode_cases now k e db) as [[E _]|[[E _]|[E _]]];
      rewrite E in Hd; cbn [otpCodes setOtpCodes insertOtpCode] in Hd.
    + now apply H.
    + apply filter_In in Hd as [Hd _]. now apply H.
    + apply in_app_or in Hd as [Hd|[<-|[]]].
      * apply filter_In in Hd as [Hd _]. now apply H.
      * exfalso. cbn [otp_email otp_code OTPCode.create] in He, Hc.
        cbn [reissues] in Hr. rewrite He, Hc, !String.eqb_refl in Hr. discriminate.
  - intros d Hd He Hc.
    destruct (verifyOTPCode_otpCodes svc now e c db) as [E|(d0 & _ & E)];
      rewrite E in Hd; [now apply H|].
    apply in_save in Hd as [->|[Hd _]]; [now left|now apply H].
  - intros d Hd. rewrite logout_otpCodes in Hd. now apply H.
  - exact H.
  - intros d Hd. cbn [otpCodes ttlMonitor] in Hd.
    apply filter_In in Hd as [Hd _]. now apply H.
  - exact H.
Qed.

Lemma run_unusableBy svc email code T h :
  noReissue email code h ->
  forall db, unusableBy email code T db -> unusableBy email code T (run svc h db).
Proof.
  induction 1 as [|[now ev] h Hev _ IH]; intros db H; cbn [run]; [exact H|].
  apply IH. now apply step_unusableBy.
Qed.

(** Once the one pending code of an email has been verified, no record for
    that email and code is left unconsumed. *)
Lemma verifyOTPCode_consumes svc now email code db T :
  (List.length (pendingCodes email db) <= 1)%nat ->
  success (snd (verifyOTPCode svc now email code db)) = true ->
  unusableBy email code T (fst (verifyOTPCode svc now email code db)).
Proof.
  intros Hp Hs.
  destruct (verifyOTPCode svc now email code db) as [db' r] eqn:E.
  destruct (verifyOTPCode_success_inv _ _ _ _ _ _ _ E Hs) as (d & u & H1 & H2 & H3).
  rewrite (verifyOTPCode_login svc now email code db d u H1 H2 H3) in E.
  inversion E; subst; clear E. cbn [fst otpCodes setUsers setOtpCodes].
  destruct (findOne_usable _ _ _ _ _ H1) as (Hin & He & Hc & Hv & _).
  intros x Hx Hxe Hxc. left.
  apply in_save in Hx as [->|[Hx Hid]]; [reflexivity|].
  destruct (otp_verified x) eqn:Hxv; [reflexivity|]. exfalso.
  assert (Hpx : forall y, In y (otpCodes db) -> otp_email y = castEmail email ->
                          otp_verified y = false ->
                          In y (pendingCodes email db)).
  { intros y Hy Hye Hyv. apply filter_In. split; [exact Hy|].
    unfold OTPCode.pending. now rewrite Hye, String.eqb_refl, Hyv. }
  pose proof (two_members x d _ (Hpx x Hx Hxe Hxv) (Hpx d Hin He Hv)) as H2m.
  assert (x <> d) by congruence. specialize (H2m H). lia.
Qed.

(** C3, as the claim has it, fails: after [verifyCode(E, C)] has succeeded
    and consumed the record, a new [sendCode(E)] that draws the same six
    digits issues a fresh code, and the next [verifyCode(E, C)] succeeds
    instead of returning 'Invalid or expired OTP code'. *)
Lemma consumed_digits_accepted_when_reissued :
  (List.length (pendingCodes "a@b.rw" Sample.afterSend) <= 1)%nat
  /\ success (snd (verifyOTPCode Sample.svc 1000 "a@b.rw" "123456" Sample.afterSend)) = true
  /\ success (snd (verifyOTPCode Sample.svc 3000 "a@b.rw" "123456"
                     (run Sample.svc Sample.reissue
                        (fst (verifyOTPCode Sample.svc 1000 "a@b.rw" "123456"
                                Sample.afterSend))))) = true
  /\ snd (verifyOTPCode Sample.svc 3000 "a@b.rw" "123456"
            (run Sample.svc Sample.reissue
               (fst (verifyOTPCode Sample.svc 1000 "a@b.rw" "123456"
                       Sample.afterSend))))
     <> invalidOrExpiredCode.
Proof.
  split; [vm_compute; lia|].
  split; [vm_compute; reflexivity|].
  split; [vm_compute; reflexivity|].
  vm_compute. discriminate.
Qed.

(** C3 (amended): on a store with at most one unconsumed code per email
    (which every run of the service keeps, [run_singlePending]), once a call
    [verifyCode(E, C)] has succeeded, every later call [verifyCode(E, C)]
    returns the failure 'Invalid or expired OTP code' and changes nothing,
    as long as no [sendCode(E)] in between draws the digits C again,
    whatever else happens in between (other verifications, codes sent to
    other emails or with other digits, logouts, purges, changes to the user
    directory) and whenever it is made: the consumed record is never
    accepted again.  Only a fresh [sendCode(E)] that draws the digits C anew
    puts a new, different code in place. *)
Theorem consumed_code_never_accepted_again :
  forall svc now email code db h later,
    (List.length (pendingCodes email db) <= 1)%nat ->
    success (snd (verifyOTPCode svc now email code db)) = true ->
    noReissue email code h ->
    verifyOTPCode svc later email code
      (run svc h (fst (verifyOTPCode svc now email code db)))
    = (run svc h (fst (verifyOTPCode svc now email code db)), invalidOrExpiredCode).
Proof.
  intros svc now email code db h later Hp Hs Hh.
  apply (unusableBy_verify svc email code later later); [|lia].
  apply run_unusableBy; [exact Hh|].
  now apply verifyOTPCode_consumes.
Qed.

Lemma consumed_code_never_accepted_again_witness :
  (List.length (pendingCodes "a@b.rw" Sample.afterSend) <= 1)%nat
  /\ success (snd (verifyOTPCode Sample.svc 1000 "a@b.rw" "123456" Sample.afterSend)) = true
  /\ noReissue "a@b.rw" "123456" Sample.aftermath
  /\ verifyOTPCode Sample.svc 5000 "a@b.rw" "123456"
       (run Sample.svc Sample.aftermath
          (fst (verifyOTPCode Sample.svc 1000 "a@b.rw" "123456" Sample.afterSend)))
     = (run Sample.svc Sample.aftermath
          (fst (verifyOTPCode Sample.svc 1000 "a@b.rw" "123456" Sample.afterSend)),
        invalidOrExpiredCode).
Proof.
  assert (H1 : (List.length (pendingCodes "a@b.rw" Sample.afterSend) <= 1)%nat)
    by (vm_compute; lia).
  assert (H2 : success (snd (verifyOTPCode Sample.svc 1000 "a@b.rw" "123456"
                               Sample.afterSend)) = true)
    by (vm_compute; reflexivity).
  assert (H3 : noReissue "a@b.rw" "123456" Sample.aftermath)
    by (repeat constructor).
  split; [exact H1|]. split; [exact H2|]. split; [exact H3|].
  exact (consumed_code_never_accepted_again Sample.svc 1000 "a@b.rw" "123456"
           Sample.afterSend Sample.aftermath 5000 H1 H2 H3).
Defined.

(** The record of a consumed code stays consumed and is never the one a
    later verification picks, even if the same digits are issued again. *)
Lemma consumed_record_never_picked email code now docs d :
  otp_verified d = true -> OTPCode.findOne email code now docs <> Some d.
Proof.
  intros Hv H. apply findOne_usable in H as (_ & _ & _ & Hf & _). congruence.
Qed.

(** ** Expiry *)

(** An expired record is never the one a verification picks, whatever else
    the store holds. *)
Lemma expired_record_never_picked email code now docs d :
  otp_expiresAt d <= now -> OTPCode.findOne email code now docs <> Some d.
Proof.
  intros He H. apply findOne_usable in H as (_ & _ & _ & _ & Hl). lia.
Qed.

Lemma sendOTPCode_unusableBy now k email db :
  snd (sendOTPCode now k email db)
    = Ok {| o_success := true; o_message := "OTP code sent to your email address" |} ->
  unusableBy email (generateCode k) (now + 5 * 60 * 1000)
    (fst (sendOTPCode now k email db)).
Proof.
  intros Hs.
  destruct (sendOTPCode_cases now k email db) as [[_ [m E]]|[[_ E]|[E _]]];
    try (rewrite E in Hs; discriminate).
  rewrite E. cbn [otpCodes setOtpCodes insertOtpCode].
  intros d Hd He Hc. apply in_app_or in Hd as [Hd|[<-|[]]].
  - left. apply filter_In in Hd as [_ Hd]. apply negb_true_iff in Hd.
    unfold OTPCode.pending in Hd. rewrite He, String.eqb_refl in Hd.
    now destruct (otp_verified d).
  - right. cbn [otp_expiresAt OTPCode.create]. lia.
Qed.

Lemma sendOTPCode_issues now k email db :
  snd (sendOTPCode now k email db)
    = Ok {| o_success := true; o_message := "OTP code sent to your email address" |} ->
  In (OTPCode.create (nextId db) email (generateCode k) (now + 5 * 60 * 1000) now)
     (otpCodes (fst (sendOTPCode now k email db))).
Proof.
  intros Hs.
  destruct (sendOTPCode_cases now k email db) as [[_ [m E]]|[[_ E]|[E _]]];
    try (rewrite E in Hs; discriminate).
  rewrite E. cbn [otpCodes setOtpCodes insertOtpCode].
  apply in_or_app. right. now left.
Qed.

(** C5, as the claim has it, fails: a code is issued at instant 0 and
    never consumed; 400 seconds later [sendCode] for the same email draws
    the same six digits; the [verifyCode] call with that email and those
    digits at 500 seconds, well past [issuedAt + 5 minutes + 1 second],
    succeeds instead of returning 'Invalid or expired OTP code'. *)
Lemma expired_digits_accepted_when_reissued :
  snd (sendOTPCode 0 23456 "a@b.rw" (emptyDb [Sample.alice]))
    = Ok {| o_success := true; o_message := "OTP code sent to your email address" |}
  /\ 0 + 5 * 60 * 1000 + 1000 <= 500000
  /\ success (snd (verifyOTPCode Sample.svc 500000 "a@b.rw" (generateCode 23456)
                     (run Sample.svc Sample.reissueLate
                        (fst (sendOTPCode 0 23456 "a@b.rw" (emptyDb [Sample.alice]))))))
     = true
  /\ snd (verifyOTPCode Sample.svc 500000 "a@b.rw" (generateCode 23456)
            (run Sample.svc Sample.reissueLate
               (fst (sendOTPCode 0 23456 "a@b.rw" (emptyDb [Sample.alice])))))
     <> invalidOrExpiredCode.
Proof.
  split; [vm_compute; reflexivity|].
  split; [lia|].
  split; [vm_compute; reflexivity|].
  vm_compute. discriminate.
Qed.

(** C5 (amended): a code issued at [issuedAt] is stored with
    [expiresAt = issuedAt + 5 minutes], unconsumed, under the email and the
    digits it was issued for; and a [verifyCode] call with that email and
    those digits, made at [issuedAt + 5 minutes + 1 second] or later, returns
    the failure 'Invalid or expired OTP code', whatever happened in between
    short of the same digits being issued to the email again; in particular
    when nothing happened and the code was never consumed. *)
Theorem expired_code_rejected :
  forall svc issuedAt k email db h now,
    snd (sendOTPCode issuedAt k email db)
      = Ok {| o_success := true; o_message := "OTP code sent to your email address" |} ->
    noReissue email (generateCode k) h ->
    issuedAt + 5 * 60 * 1000 + 1000 <= now ->
    In {| otp_id := nextId db; otp_email := castEmail email;
          otp_code := generateCode k; otp_expiresAt := issuedAt + 5 * 60 * 1000;
          otp_verified := false; otp_createdAt := issuedAt |}
       (otpCodes (fst (sendOTPCode issuedAt k email db)))
    /\ verifyOTPCode svc now email (generateCode k)
         (run svc h (fst (sendOTPCode issuedAt k email db)))
       = (run svc h (fst (sendOTPCode issuedAt k email db)), invalidOrExpiredCode).
Proof.
  intros svc issuedAt k email db h now Hs Hh Ht. split.
  - exact (sendOTPCode_issues issuedAt k email db Hs).
  - apply (unusableBy_verify svc email (generateCode k) (issuedAt + 5 * 60 * 1000));
      [|lia].
    apply run_unusableBy; [exact Hh|].
    now apply sendOTPCode_unusableBy.
Qed.

Lemma expired_code_rejected_witness :
  snd (sendOTPCode 0 23456 "a@b.rw" (emptyDb [Sample.alice]))
    = Ok {| o_success := true; o_message := "OTP code sent to your email address" |}
  /\ noReissue "a@b.rw" (generateCode 23456) []
  /\ 0 + 5 * 60 * 1000 + 1000 <= 301000
  /\ verifyOTPCode Sample.svc 301000 "a@b.rw" (generateCode 23456)
       (run Sample.svc [] (fst (sendOTPCode 0 23456 "a@b.rw" (emptyDb [Sample.alice]))))
     = (run Sample.svc [] (fst (sendOTPCode 0 23456 "a@b.rw" (emptyDb [Sample.alice]))),
        invalidOrExpiredCode).
Proof.
  assert (H1 : snd (sendOTPCode 0 23456 "a@b.rw" (emptyDb [Sample.alice]))
               = Ok {| o_success := true;
                       o_message := "OTP code sent to your email address" |})
    by (vm_compute; reflexivity).
  assert (H2 : noReissue "a@b.rw" (generateCode 23456) []) by constructor.
  assert (H3 : 0 + 5 * 60 * 1000 + 1000 <= 301000) by lia.
  split; [exact H1|]. split; [exact H2|]. split; [exact H3|].
  exact (proj2 (expired_code_rejected Sample.svc 0 23456 "a@b.rw"
                  (emptyDb [Sample.alice]) [] 301000 H1 H2 H3)).
Defined.

(** ** The blacklist *)

Lemma logout_revocable now t e db :
  revocable t e ->
  (existsb (TokenBlacklist.hasToken t) (tokenBlacklist db) = true
   /\ logout now t db = (db, logoutOk))
  \/ (existsb (TokenBlacklist.hasToken t) (tokenBlacklist db) = false
      /\ logout now t db
         = (insertedBlacklist
              (tokenBlacklist db ++ [blacklistEntry (nextId db) t e now]) db,
            logoutOk)).
Proof.
  intros ((p & Hd & He) & Hz & Hv). unfold logout, TokenBlacklist.save.
  rewrite Hd, He. cbn [bl_expiresAt bl_token]. rewrite Hv. cbn [negb].
  destruct (existsb (TokenBlacklist.hasToken t) (tokenBlacklist db)) eqn:Hx.
  - left. split; [reflexivity|]. destruct e; [contradiction| |]; reflexivity.
  - right. split; [reflexivity|]. destruct e; [contradiction| |]; reflexivity.
Qed.

Lemma logout_success_revocable now t db :
  o_success (snd (logout now t db)) = true -> exists e, revocable t e.
Proof.
  unfold logout, revocable.
  destruct (Jwt.decode t) as [p|]; [|discriminate].
  destruct (Jwt.exp p) as [e|] eqn:He; [|discriminate].
  destruct (Z.eq_dec e 0) as [->|Hz]; [discriminate|].
  intros H. exists e. split; [now exists p|]. split; [exact Hz|].
  unfold TokenBlacklist.save in H. cbn [bl_expiresAt] in H.
  destruct (Js.validDate (e * 1000)); [reflexivity|].
  cbn [negb TokenBlacklist.code] in H. destruct e; discriminate.
Qed.

Lemma logout_unrevocable now t db :
  (forall e, ~ revocable t e) ->
  fst (logout now t db) = db /\ o_success (snd (logout now t db)) = false.
Proof.
  intros H. destruct (o_success (snd (logout now t db))) eqn:E.
  - apply logout_success_revocable in E as [e He]. now destruct (H e).
  - split; [|reflexivity]. revert E. unfold logout.
    destruct (Jwt.decode t) as [p|]; [|reflexivity].
    destruct (Jwt.exp p) as [[|e|e]|]; try reflexivity;
      (destruct (TokenBlacklist.save _ _) as [l|[]]; [discriminate|reflexivity..]).
Qed.

Lemma logout_blacklist now t db :
  blacklistChange now (tokenBlacklist db) (tokenBlacklist (fst (logout now t db))).
Proof.
  unfold blacklistChange.
  destruct (o_success (snd (logout now t db))) eqn:E.
  - apply logout_success_revocable in E as [e He].
    destruct (logout_revocable now t e db He) as [[_ ->]|[Hx ->]]; [now left|].
    right; right. exists (blacklistEntry (nextId db) t e now).
    split; [exact Hx|]. split; [|reflexivity].
    destruct He as ((p & Hp & Hpe) & _). now exists p, e.
  - left. revert E. unfold logout.
    destruct (Jwt.decode t) as [p|]; [|reflexivity].
    destruct (Jwt.exp p) as [[|e|e]|]; try reflexivity;
      (destruct (TokenBlacklist.save _ _) as [l|[]]; [discriminate|reflexivity..]).
Qed.

Lemma step_blacklist svc now ev db :
  blacklistChange now (tokenBlacklist db) (tokenBlacklist (step svc now ev db)).
Proof.
  destruct ev as [e k|e c|t| | |us]; cbn [step].
  - left. destruct (sendOTPCode_cases now k e db) as [[E _]|[[E _]|[E _]]];
      now rewrite E.
  - left. unfold verifyOTPCode.
    destruct (OTPCode.findOne _ _ _ _); [|reflexivity].
    destruct (User.findOne _ _); [|reflexivity].
    destruct (negb _); reflexivity.
  - apply logout_blacklist.
  - right; left. reflexivity.
  - right; left. reflexivity.
  - left. reflexivity.
Qed.

Lemma step_blacklistFaithful svc now ev db :
  blacklistFaithful db -> blacklistFaithful (step svc now ev db).
Proof.
  unfold blacklistFaithful. intros H.
  destruct (step_blacklist svc now ev db) as [E|[E|(d & _ & Hd & E)]]; rewrite E.
  - exact H.
  - apply Forall_forall. intros x Hx. apply filter_In in Hx as [Hx _].
    revert x Hx. now apply Forall_forall.
  - apply Forall_app. split; [exact H|]. now constructor.
Qed.

Lemma run_blacklistFaithful svc h :
  forall db, blacklistFaithful db -> blacklistFaithful (run svc h db).
Proof.
  induction h as [|[now ev] h IH]; intros db H; cbn [run]; [exact H|].
  now apply IH, step_blacklistFaithful.
Qed.

Lemma existsb_hasToken t docs :
  existsb (TokenBlacklist.hasToken t) docs = true <->
  exists d, In d docs /\ bl_token d = t.
Proof.
  rewrite existsb_exists. unfold TokenBlacklist.hasToken.
  split; intros (d & Hd & H); exists d; (split; [exact Hd|]); now apply Token_eqb_eq.
Qed.

Lemma change_uniqueTokens now db db' :
  blacklistChange now (tokenBlacklist db) (tokenBlacklist db') ->
  uniqueTokens db -> uniqueTokens db'.
Proof.
  intros Hc H t. unfold blacklistRecords.
  destruct Hc as [E|[E|(d & Hx & _ & E)]]; rewrite E.
  - apply H.
  - unfold TokenBlacklist.deleteExpired.
    etransitivity; [apply filter_filter_le|apply H].
  - rewrite filter_app, length_app. cbn [filter].
    destruct (TokenBlacklist.hasToken t d) eqn:Ht.
    + apply Token_eqb_eq in Ht. subst t.
      rewrite filter_all_false; [simpl; lia|].
      intros x Hx'. destruct (TokenBlacklist.hasToken (bl_token d) x) eqn:Hh;
        [|reflexivity].
      assert (existsb (TokenBlacklist.hasToken (bl_token d)) (tokenBlacklist db) = true)
        by (apply existsb_exists; now exists x).
      congruence.
    + simpl. rewrite Nat.add_0_r. apply H.
Qed.

Lemma step_uniqueTokens svc now ev db :
  uniqueTokens db -> uniqueTokens (step svc now ev db).
Proof. apply (change_uniqueTokens now), step_blacklist. Qed.

Lemma logout_uniqueTokens now t db :
  uniqueTokens db -> uniqueTokens (fst (logout now t db)).
Proof. apply (change_uniqueTokens now), logout_blacklist. Qed.

Lemma run_uniqueTokens svc h :
  forall db, uniqueTokens db -> uniqueTokens (run svc h db).
Proof.
  induction h as [|[now ev] h IH]; intros db H; cbn [run]; [exact H|].
  now apply IH, step_uniqueTokens.
Qed.

Lemma step_revokedUntil svc now ev t e db :
  now < e * 1000 -> revokedUntil t e db -> revokedUntil t e (step svc now ev db).
Proof.
  intros Hn (d & Hd & Ht & He). exists d.
  destruct (step_blacklist svc now ev db) as [E|[E|(d' & _ & _ & E)]]; rewrite E.
  - auto.
  - split; [|auto]. apply filter_In. split; [exact Hd|].
    apply negb_true_iff, Z.leb_gt. lia.
  - split; [|auto]. apply in_or_app. now left.
Qed.

Lemma run_revokedUntil svc t e h :
  Forall (fun te => fst te < e * 1000) h ->
  forall db, revokedUntil t e db -> revokedUntil t e (run svc h db).
Proof.
  induction 1 as [|[now ev] h Hn _ IH]; intros db H; cbn [run]; [exact H|].
  apply IH. now apply step_revokedUntil.
Qed.

Lemma revokedUntil_blacklisted t e now db :
  revokedUntil t e db -> now < e * 1000 -> isTokenBlacklisted now t db = true.
Proof.
  intros (d & Hd & Ht & He) Hn. unfold isTokenBlacklisted, TokenBlacklist.findOne.
  destruct (find _ _) eqn:E; [reflexivity|].
  pose proof (find_none _ _ E d Hd) as Hf. cbn beta in Hf.
  unfold TokenBlacklist.hasToken in Hf. rewrite Ht, Token_eqb_refl, He in Hf.
  apply andb_false_iff in Hf as [Hf|Hf]; [discriminate|].
  apply Z.ltb_ge in Hf. lia.
Qed.

Lemma logout_revokedUntil now t e db :
  blacklistFaithful db -> revocable t e ->
  revokedUntil t e (fst (logout now t db)).
Proof.
  intros Hf He. destruct (logout_revocable now t e db He) as [[Hx ->]|[_ ->]].
  - cbn [fst]. apply existsb_hasToken in Hx as (d & Hd & Ht).
    exists d. split; [exact Hd|]. split; [exact Ht|].
    unfold blacklistFaithful in Hf. rewrite Forall_forall in Hf.
    destruct (Hf d Hd) as (p & e' & Hp & Hpe & ->).
    destruct He as ((p0 & Hp0 & Hpe0) & _). rewrite Ht in Hp. congruence.
  - cbn [fst tokenBlacklist insertedBlacklist].
    exists (blacklistEntry (nextId db) t e now).
    split; [apply in_or_app; right; now left|]. split; reflexivity.
Qed.

Lemma logout_listed now t e db :
  revocable t e ->
  existsb (TokenBlacklist.hasToken t) (tokenBlacklist (fst (logout now t db))) = true.
Proof.
  intros He. destruct (logout_revocable now t e db He) as [[Hx ->]|[_ ->]].
  - exact Hx.
  - cbn [fst tokenBlacklist insertedBlacklist]. rewrite existsb_app.
    cbn [existsb]. unfold TokenBlacklist.hasToken at 2.
    cbn [bl_token blacklistEntry]. rewrite Token_eqb_refl. apply orb_true_r.
Qed.

Lemma listed_once t db :
  uniqueTokens db ->
  existsb (TokenBlacklist.hasToken t) (tokenBlacklist db) = true ->
  List.length (blacklistRecords t db) = 1%nat.
Proof.
  intros Hu Hx. specialize (Hu t). unfold blacklistRecords in *.
  apply existsb_exists in Hx as (d & Hd & Ht).
  assert (Hin : In d (filter (TokenBlacklist.hasToken t) (tokenBlacklist db)))
    by (apply filter_In; now split).
  destruct (filter _ _); [contradiction|]. simpl in *. lia.
Qed.

Lemma expiry_in_future now e : now < e * 1000 <-> now / 1000 < e.
Proof.
  split; intros H.
  - apply Z.div_lt_upper_bound; lia.
  - pose proof (Z.mul_div_le now 1000 ltac:(lia)).
    pose proof (Z.mod_pos_bound now 1000 ltac:(lia)).
    pose proof (Z.div_mod now 1000 ltac:(lia)). lia.
Qed.

(** ** Revocation *)

(** C6: on a blacklist whose records carry the expiry of their tokens (as
    every record [logout] writes does, [run_blacklistFaithful]), once
    [logout(token)] has succeeded, the [authenticate] middleware answers a
    request bearing that token with 401 'Token has been revoked' for as long
    as the token's expiry lies in the future, whatever happened since the
    logout.  Nothing is asked of the signature: the blacklist is looked up
    before the token is verified, so a token that would verify is refused
    all the same. *)
Theorem revoked_token_rejected :
  forall svc loggedOutAt token db h now e,
    blacklistFaithful db ->
    o_success (snd (logout loggedOutAt token db)) = true ->
    (exists p, Jwt.decode token = Some p /\ Jwt.exp p = Some e) ->
    now < e * 1000 ->
    Forall (fun te => fst te <= now) h ->
    isTokenBlacklisted now token (run svc h (fst (logout loggedOutAt token db))) = true
    /\ authenticate svc now (Bearer token) (run svc h (fst (logout loggedOutAt token db)))
       = Respond 401 "Token has been revoked".
Proof.
  intros svc t0 token db h now e Hf Hs (p & Hp & Hpe) Hn Hh.
  assert (Hb : isTokenBlacklisted now token (run svc h (fst (logout t0 token db))) = true).
  { apply (revokedUntil_blacklisted token e); [|exact Hn].
    apply run_revokedUntil.
    - eapply Forall_impl; [|exact Hh]. cbn beta. intros te Hte. lia.
    - apply logout_revokedUntil; [exact Hf|].
      apply logout_success_revocable in Hs as (e' & (p' & Hp' & Hpe') & Hz & Hv).
      assert (e' = e) by congruence. subst e'.
      split; [now exists p|now split]. }
  split; [exact Hb|]. unfold authenticate. now rewrite Hb.
Qed.

(** C7, as the claim has it, fails: a well-formed token without an [exp]
    claim decodes, yet [logout] answers 'Invalid token' each time and no
    blacklist record is written. *)
Lemma logout_token_without_exp :
  Jwt.decode Sample.eternalToken <> None
  /\ logout 2000 Sample.eternalToken Sample.afterLogin
     = (Sample.afterLogin, {| o_success := false; o_message := "Invalid token" |})
  /\ logout 3000 Sample.eternalToken
       (fst (logout 2000 Sample.eternalToken Sample.afterLogin))
     = (Sample.afterLogin, {| o_success := false; o_message := "Invalid token" |})
  /\ blacklistRecords Sample.eternalToken
       (fst (logout 3000 Sample.eternalToken
               (fst (logout 2000 Sample.eternalToken Sample.afterLogin)))) = [].
Proof.
  split; [discriminate|].
  split; [vm_compute; reflexivity|].
  split; vm_compute; reflexivity.
Qed.

(** C7 (amended): for every token that decodes and whose [exp] claim is
    present, not zero and an instant a [Date] can hold, on a blacklist that
    respects its unique index, calling [logout] twice with that token
    succeeds both times; the second call writes nothing (the duplicate-key
    error is absorbed) and afterwards exactly one blacklist record exists
    for that token string. *)
Theorem logout_twice :
  forall t1 t2 token e db,
    uniqueTokens db ->
    revocable token e ->
    snd (logout t1 token db) = logoutOk
    /\ logout t2 token (fst (logout t1 token db)) = (fst (logout t1 token db), logoutOk)
    /\ List.length
         (blacklistRecords token (fst (logout t2 token (fst (logout t1 token db)))))
       = 1%nat.
Proof.
  intros t1 t2 token e db Hu He.
  assert (H1 : snd (logout t1 token db) = logoutOk).
  { destruct (logout_revocable t1 token e db He) as [[_ ->]|[_ ->]]; reflexivity. }
  pose proof (logout_listed t1 token e db He) as Hx.
  assert (H2 : logout t2 token (fst (logout t1 token db))
               = (fst (logout t1 token db), logoutOk)).
  { destruct (logout_revocable t2 token e (fst (logout t1 token db)) He)
      as [[_ E]|[Hn _]]; [exact E|congruence]. }
  split; [exact H1|]. split; [exact H2|]. rewrite H2. cbn [fst].
  apply listed_once; [|exact Hx].
  now apply logout_uniqueTokens.
Qed.

(** The same when anything happens between the two calls: both succeed and
    one record is left, whether the first one was purged meanwhile or not. *)
Lemma logout_again_later svc t1 t2 token e db h :
  uniqueTokens db -> revocable token e ->
  snd (logout t2 token (run svc h (fst (logout t1 token db)))) = logoutOk
  /\ List.length
       (blacklistRecords token
          (fst (logout t2 token (run svc h (fst (logout t1 token db))))))
     = 1%nat.
Proof.
  intros Hu He.
  set (db1 := run svc h (fst (logout t1 token db))).
  assert (Hu1 : uniqueTokens db1).
  { now apply run_uniqueTokens, logout_uniqueTokens. }
  split.
  - destruct (logout_revocable t2 token e db1 He) as [[_ ->]|[_ ->]]; reflexivity.
  - apply listed_once.
    + now apply logout_uniqueTokens.
    + now apply (logout_listed t2 token e).
Qed.

Lemma revoked_token_rejected_witness :
  blacklistFaithful Sample.afterLogin
  /\ o_success (snd (logout 2000 Sample.accessToken Sample.afterLogin)) = true
  /\ (exists p, Jwt.decode Sample.accessToken = Some p /\ Jwt.exp p = Some 86401)
  /\ 3000 < 86401 * 1000
  /\ Forall (fun te => fst te <= 3000) Sample.purges
  /\ verifyAccessToken Sample.svc 3000 Sample.accessToken = Ok Sample.accessPayload
  /\ isTokenBlacklisted 3000 Sample.accessToken
       (run Sample.svc Sample.purges
          (fst (logout 2000 Sample.accessToken Sample.afterLogin))) = true
  /\ authenticate Sample.svc 3000 (Bearer Sample.accessToken)
       (run Sample.svc Sample.purges
          (fst (logout 2000 Sample.accessToken Sample.afterLogin)))
     = Respond 401 "Token has been revoked".
Proof.
  assert (H1 : blacklistFaithful Sample.afterLogin) by (vm_compute; constructor).
  assert (H2 : o_success (snd (logout 2000 Sample.accessToken Sample.afterLogin)) = true)
    by (vm_compute; reflexivity).
  assert (H3 : exists p, Jwt.decode Sample.accessToken = Some p
                         /\ Jwt.exp p = Some 86401)
    by (exists Sample.accessPayload; split; vm_compute; reflexivity).
  assert (H4 : 3000 < 86401 * 1000) by lia.
  assert (H5 : Forall (fun te => fst te <= 3000) Sample.purges)
    by (repeat constructor; cbn [fst]; lia).
  split; [exact H1|]. split; [exact H2|]. split; [exact H3|].
  split; [exact H4|]. split; [exact H5|].
  split; [vm_compute; reflexivity|].
  exact (revoked_token_rejected Sample.svc 2000 Sample.accessToken Sample.afterLogin
           Sample.purges 3000 86401 H1 H2 H3 H4 H5).
Defined.

Lemma logout_twice_witness :
  uniqueTokens Sample.afterLogin
  /\ revocable Sample.accessToken 86401
  /\ snd (logout 2000 Sample.accessToken Sample.afterLogin) = logoutOk
  /\ logout 3000 Sample.accessToken (fst (logout 2000 Sample.accessToken Sample.afterLogin))
     = (fst (logout 2000 Sample.accessToken Sample.afterLogin), logoutOk)
  /\ List.length
       (blacklistRecords Sample.accessToken
          (fst (logout 3000 Sample.accessToken
                  (fst (logout 2000 Sample.accessToken Sample.afterLogin)))))
     = 1%nat.
Proof.
  assert (H1 : uniqueTokens Sample.afterLogin) by (intros t; vm_compute; lia).
  assert (H2 : revocable Sample.accessToken 86401).
  { split; [exists Sample.accessPayload; split; vm_compute; reflexivity|].
    split; [lia|vm_compute; reflexivity]. }
  split; [exact H1|]. split; [exact H2|].
  exact (logout_twice 2000 3000 Sample.accessToken 86401 Sample.afterLogin H1 H2).
Defined.

Lemma getUserFromToken_by_subject_only_witness :
  Jwt.verify Sample.accessToken (jwtSecret Sample.svc) 3000 = Ok Sample.accessPayload
  /\ isTokenBlacklisted 3000 Sample.accessToken Sample.afterLogoutInactive = true
  /\ User.findById (Jwt.userId (Jwt.claims Sample.accessPayload))
       (users Sample.afterLogoutInactive) = Some Sample.aliceInactive
  /\ getUserFromToken Sample.svc 3000 Sample.accessToken Sample.afterLogoutInactive
     = User.findById (Jwt.userId (Jwt.claims Sample.accessPayload))
         (users Sample.afterLogoutInactive).
Proof.
  assert (H : Jwt.verify Sample.accessToken (jwtSecret Sample.svc) 3000
              = Ok Sample.accessPayload) by (vm_compute; reflexivity).
  split; [exact H|].
  split; [vm_compute; reflexivity|].
  split; [vm_compute; reflexivity|].
  exact (proj1 (getUserFromToken_by_subject_only Sample.svc 3000 Sample.accessToken
                  Sample.afterLogoutInactive Sample.accessPayload H)).
Defined.

(** ** The invariants hold in every run from an empty store *)

Lemma emptyDb_blacklistFaithful us : blacklistFaithful (emptyDb us).
Proof. constructor. Qed.

Lemma emptyDb_uniqueTokens us : uniqueTokens (emptyDb us).
Proof. intros t. unfold blacklistRecords. simpl. lia. Qed.

Lemma run_invariants svc us h :
  singlePending (run svc h (emptyDb us))
  /\ uniqueTokens (run svc h (emptyDb us))
  /\ blacklistFaithful (run svc h (emptyDb us)).
Proof.
  split; [|split].
  - apply run_singlePending, emptyDb_singlePending.
  - apply run_uniqueTokens, emptyDb_uniqueTokens.
  - apply run_blacklistFaithful, emptyDb_blacklistFaithful.
Qed.

(** The one way digits come back: a later [sendCode] to the same email that
    happens to draw them again issues a new code, which is accepted once
    like any other. *)
Lemma same_digits_issued_again :
  success (snd (verifyOTPCode Sample.svc 3000 "a@b.rw" "123456"
                  (step Sample.svc 2000 (SendCode "a@b.rw" 23456) Sample.afterLogin)))
  = true.
Proof. vm_compute; reflexivity. Qed.

(** * Further properties of the authentication code *)

(** ** Tokens: what is issued verifies, until it expires *)

Lemma verify_signed secret p now :
  Jwt.verify (Jwt.Signed secret p) secret now
  = match Jwt.exp p with
    | Some e => if e <=? now / 1000 then Throw "jwt expired" else Ok p
    | None => Ok p
    end.
Proof. unfold Jwt.verify. now rewrite String.eqb_refl. Qed.

(** X1: an access token verifies as an access token, and a refresh token as
    a refresh token, from the second it is issued in up to, and not
    including, the second [issuedAt/1000 + life span]; from that second on
    it is refused.  What verification returns is the payload that was
    signed: the user's id and email, the role (access tokens only), the
    kind, [iat] and [exp]. *)
Theorem issued_token_round_trip :
  forall svc issuedAt now u,
    verifyAccessToken svc now (generateAccessToken svc issuedAt u)
    = (if issuedAt / 1000 + jwtExpire svc <=? now / 1000
       then Throw "Invalid or expired token"
       else Ok {| Jwt.claims := {| Jwt.userId := u_id u; Jwt.email := u_email u;
                                   Jwt.role := Some (u_role u); Jwt.type := "access" |};
                  Jwt.iat := issuedAt / 1000;
                  Jwt.exp := Some (issuedAt / 1000 + jwtExpire svc) |})
    /\ verifyRefreshToken svc now (generateRefreshToken svc issuedAt u)
       = (if issuedAt / 1000 + jwtRefreshExpire svc <=? now / 1000
          then Throw "Invalid or expired refresh token"
          else Ok {| Jwt.claims := {| Jwt.userId := u_id u; Jwt.email := u_email u;
                                      Jwt.role := None; Jwt.type := "refresh" |};
                     Jwt.iat := issuedAt / 1000;
                     Jwt.exp := Some (issuedAt / 1000 + jwtRefreshExpire svc) |}).
Proof.
  intros svc issuedAt now u.
  unfold verifyAccessToken, verifyRefreshToken, generateAccessToken,
    generateRefreshToken, Jwt.sign.
  rewrite !verify_signed. cbn [Jwt.exp].
  split.
  - now destruct (issuedAt / 1000 + jwtExpire svc <=? now / 1000).
  - now destruct (issuedAt / 1000 + jwtRefreshExpire svc <=? now / 1000).
Qed.

(** X2: [verifyPasswordResetToken] accepts the tokens of
    [generatePasswordResetToken] for one hour (3600 seconds from the second
    of issue), and refuses every token of [generateAccessToken] at every
    instant, although both kinds are signed with the same secret: here the
    [type] claim is checked. *)
Theorem password_reset_token_checked_by_type :
  forall svc issuedAt now u,
    verifyPasswordResetToken svc now (generatePasswordResetToken svc issuedAt u)
    = (if issuedAt / 1000 + 3600 <=? now / 1000
       then Throw "Invalid or expired password reset token"
       else Ok {| Jwt.claims := {| Jwt.userId := u_id u; Jwt.email := u_email u;
                                   Jwt.role := None; Jwt.type := "password_reset" |};
                  Jwt.iat := issuedAt / 1000;
                  Jwt.exp := Some (issuedAt / 1000 + 3600) |})
    /\ verifyPasswordResetToken svc now (generateAccessToken svc issuedAt u)
       = Throw "Invalid or expired password reset token".
Proof.
  intros svc issuedAt now u.
  unfold verifyPasswordResetToken, generatePasswordResetToken, generateAccessToken,
    Jwt.sign.
  rewrite !verify_signed. cbn [Jwt.exp].
  split.
  - now destruct (issuedAt / 1000 + 3600 <=? now / 1000).
  - now destruct (issuedAt / 1000 + jwtExpire svc <=? now / 1000).
Qed.

(** ** authenticate and optionalAuth *)

Lemma verifyAccessToken_inv svc now t p :
  verifyAccessToken svc now t = Ok p <-> Jwt.verify t (jwtSecret svc) now = Ok p.
Proof.
  unfold verifyAccessToken.
  destruct (Jwt.verify t (jwtSecret svc) now); split; congruence.
Qed.

Lemma authenticate_next svc now t db p u :
  isTokenBlacklisted now t db = false ->
  Jwt.verify t (jwtSecret svc) now = Ok p ->
  User.findById (Jwt.userId (Jwt.claims p)) (users db) = Some u ->
  u_status u = active ->
  authenticate svc now (Bearer t) db = Next u.
Proof.
  intros Hb Hv Hu Hs. unfold authenticate.
  apply verifyAccessToken_inv in Hv. now rewrite Hb, Hv, Hu, Hs.
Qed.

(** X3: [authenticate] lets a request through, attaching the user [u], in
    exactly one situation: the header is ['Bearer ' + token], the token has
    no unexpired blacklist record, it verifies under the access secret, the
    user found under its subject id is [u], and [u] is active.  In every
    other case it responds, always with status 401: 'Access token required'
    without a header or with one that does not start with ['Bearer '],
    'Token has been revoked' for a blacklisted token, 'Invalid or expired
    token' for one that is not blacklisted and does not verify, 'Account is
    inactive' when the user found is not active, and, when no user is found
    under the subject id, 'User not found' (the [catch] block's 401
    'Invalid or expired token' being the answer when the lookup itself
    throws).  So a user deactivated or deleted after the token was issued
    is refused at once. *)
Theorem authenticate_passes_iff :
  forall svc now authHeader db,
    (forall u,
        authenticate svc now authHeader db = Next u
        <-> exists t p,
              authHeader = Bearer t
              /\ isTokenBlacklisted now t db = false
              /\ Jwt.verify t (jwtSecret svc) now = Ok p
              /\ User.findById (Jwt.userId (Jwt.claims p)) (users db) = Some u
              /\ u_status u = active)
    /\ (forall st m, authenticate svc now authHeader db = Respond st m -> st = 401)
    /\ (authHeader = NoHeader \/ (exists raw, authHeader = NotBearer raw) ->
        authenticate svc now authHeader db = Respond 401 "Access token required")
    /\ (forall t,
          authHeader = Bearer t ->
          isTokenBlacklisted now t db = true ->
          authenticate svc now authHeader db = Respond 401 "Token has been revoked")
    /\ (forall t m,
          authHeader = Bearer t ->
          isTokenBlacklisted now t db = false ->
          Jwt.verify t (jwtSecret svc) now = Throw m ->
          authenticate svc now authHeader db = Respond 401 "Invalid or expired token")
    /\ (forall t p,
          authHeader = Bearer t ->
          isTokenBlacklisted now t db = false ->
          Jwt.verify t (jwtSecret svc) now = Ok p ->
          User.findById (Jwt.userId (Jwt.claims p)) (users db) = None ->
          exists m,
            authenticate svc now authHeader db = Respond 401 m
            /\ (m = "User not found" \/ m = "Invalid or expired token"))
    /\ (forall t p u,
          authHeader = Bearer t ->
          isTokenBlacklisted now t db = false ->
          Jwt.verify t (jwtSecret svc) now = Ok p ->
          User.findById (Jwt.userId (Jwt.claims p)) (users db) = Some u ->
          u_status u <> active ->
          authenticate svc now authHeader db = Respond 401 "Account is inactive").
Proof.
  intros svc now authHeader db.
  split; [|split; [|split; [|split; [|split; [|split]]]]].
  - intros u. unfold authenticate. split.
    + destruct authHeader as [|raw|t]; try discriminate.
      destruct (isTokenBlacklisted now t db) eqn:Hb; [discriminate|].
      destruct (verifyAccessToken svc now t) as [p|m] eqn:Hv; [|discriminate].
      destruct (User.findById _ _) as [u'|] eqn:Hu; [|discriminate].
      destruct (Status_eqb (u_status u') active) eqn:Hs; [|discriminate].
      cbn [negb]. intros H. injection H as <-.
      exists t, p. repeat split; auto.
      * now apply verifyAccessToken_inv.
      * now apply Status_eqb_active.
    + intros (t & p & -> & Hb & Hv & Hu & Hs).
      now apply (authenticate_next _ _ _ _ p).
  - intros st m. unfold authenticate.
    destruct authHeader as [|raw|t]; try (intros H; injection H as <- _; reflexivity).
    destruct (isTokenBlacklisted now t db);
      [intros H; injection H as <- _; reflexivity|].
    destruct (verifyAccessToken svc now t) as [p|e];
      [|intros H; injection H as <- _; reflexivity].
    destruct (User.findById _ _) as [u'|];
      [|intros H; injection H as <- _; reflexivity].
    destruct (negb (Status_eqb (u_status u') active));
      [intros H; injection H as <- _; reflexivity|discriminate].
  - intros [->|[raw ->]]; reflexivity.
  - intros t -> Hb. unfold authenticate. now rewrite Hb.
  - intros t m -> Hb Hv. unfold authenticate, verifyAccessToken.
    now rewrite Hb, Hv.
  - intros t p -> Hb Hv Hu. unfold authenticate.
    apply verifyAccessToken_inv in Hv. rewrite Hb, Hv, Hu.
    exists "User not found". split; [reflexivity|now left].
  - intros t p u -> Hb Hv Hu Hs. unfold authenticate.
    apply verifyAccessToken_inv in Hv. rewrite Hb, Hv, Hu.
    destruct (Status_eqb (u_status u) active) eqn:E.
    + apply Status_eqb_active in E. contradiction.
    + reflexivity.
Qed.

(** X4: [optionalAuth] attaches a user to the request exactly when
    [authenticate] would let the request through, and it is the same user;
    in every other case it goes on without one. *)
Theorem optionalAuth_agrees_with_authenticate :
  forall svc now authHeader db u,
    optionalAuth svc now authHeader db = Some u
    <-> authenticate svc now authHeader db = Next u.
Proof.
  intros svc now authHeader db u. unfold optionalAuth, authenticate.
  destruct authHeader as [|raw|t]; try (split; discriminate).
  destruct (isTokenBlacklisted now t db); [split; discriminate|].
  destruct (verifyAccessToken svc now t) as [p|m]; [|split; discriminate].
  destruct (User.findById _ _) as [u'|]; [|split; discriminate].
  destruct (Status_eqb (u_status u') active); cbn [negb];
    split; intros H; try discriminate; now injection H as <-.
Qed.

(** X5: [verifyAccessToken] does not look at the [type] claim, so a
    password-reset token, signed with the same secret, is accepted as a
    bearer token: for the hour it lives, [authenticate] lets a request
    bearing it through as the (active) user it was made for, unless it has
    been blacklisted. *)
Theorem password_reset_token_passes_authenticate :
  forall svc issuedAt now u u' db,
    now / 1000 < issuedAt / 1000 + 3600 ->
    isTokenBlacklisted now (generatePasswordResetToken svc issuedAt u) db = false ->
    User.findById (u_id u) (users db) = Some u' ->
    u_status u' = active ->
    authenticate svc now (Bearer (generatePasswordResetToken svc issuedAt u)) db
    = Next u'.
Proof.
  intros svc issuedAt now u u' db Ht Hb Hu Hs.
  apply (authenticate_next svc now _ db
           {| Jwt.claims := {| Jwt.userId := u_id u; Jwt.email := u_email u;
                               Jwt.role := None; Jwt.type := "password_reset" |};
              Jwt.iat := issuedAt / 1000;
              Jwt.exp := Some (issuedAt / 1000 + 3600) |} u');
    [exact Hb| |exact Hu|exact Hs].
  unfold generatePasswordResetToken, Jwt.sign. rewrite verify_signed.
  cbn [Jwt.exp]. destruct (Z.leb_spec (issuedAt / 1000 + 3600) (now / 1000)); [lia|].
  reflexivity.
Qed.

Lemma password_reset_token_passes_authenticate_witness :
  2000 / 1000 < 1000 / 1000 + 3600
  /\ isTokenBlacklisted 2000 (generatePasswordResetToken Sample.svc 1000 Sample.alice)
       Sample.afterLogin = false
  /\ User.findById (u_id Sample.alice) (users Sample.afterLogin) = Some Sample.aliceLoggedIn
  /\ u_status Sample.aliceLoggedIn = active
  /\ authenticate Sample.svc 2000
       (Bearer (generatePasswordResetToken Sample.svc 1000 Sample.alice)) Sample.afterLogin
     = Next Sample.aliceLoggedIn.
Proof.
  assert (H1 : 2000 / 1000 < 1000 / 1000 + 3600) by (vm_compute; reflexivity).
  assert (H2 : isTokenBlacklisted 2000
                 (generatePasswordResetToken Sample.svc 1000 Sample.alice)
                 Sample.afterLogin = false) by (vm_compute; reflexivity).
  assert (H3 : User.findById (u_id Sample.alice) (users Sample.afterLogin)
               = Some Sample.aliceLoggedIn) by (vm_compute; reflexivity).
  assert (H4 : u_status Sample.aliceLoggedIn = active) by reflexivity.
  split; [exact H1|]. split; [exact H2|]. split; [exact H3|]. split; [exact H4|].
  exact (password_reset_token_passes_authenticate Sample.svc 1000 2000 Sample.alice
           Sample.aliceLoggedIn Sample.afterLogin H1 H2 H3 H4).
Defined.

(** ** From the login to the first request *)

Lemma findById_save u0 u' users :
  In u0 users -> u_id u' = u_id u0 ->
  User.findById (u_id u0) (User.save u' users) = Some u'.
Proof.
  intros Hin Hid. unfold User.findById, User.save. rewrite Hid.
  induction users as [|x l IH]; [contradiction|]. cbn [map find].
  destruct (String.eqb_spec (u_id x) (u_id u0)) as [E|E].
  - now rewrite Hid, String.eqb_refl.
  - destruct (String.eqb_spec (u_id x) (u_id u0)); [contradiction|].
    apply IH. destruct Hin as [->|Hin]; [contradiction|exact Hin].
Qed.

Lemma verifyOTPCode_token_inv svc now email code db t :
  token (snd (verifyOTPCode svc now email code db)) = Some t ->
  success (snd (verifyOTPCode svc now email code db)) = true.
Proof.
  unfold verifyOTPCode.
  destruct (OTPCode.findOne _ _ _ _); [|discriminate].
  destruct (User.findOne _ _); [|discriminate].
  destruct (negb _); [discriminate|reflexivity].
Qed.

(** X6: the access token a successful [verifyOTPCode] returns opens the
    door: on the database the login leaves, [authenticate] lets a request
    bearing it through as the very user the login returned, at any instant
    before the second [now/1000 + jwtExpire], provided the token is not on
    the blacklist (tokens are determined by user and second of issue, so a
    token revoked earlier in the same second would be).  That user has
    [emailVerified] set and [lastLogin] at the instant of the login. *)
Theorem login_token_authenticates :
  forall svc now email code db later t u,
    token (snd (verifyOTPCode svc now email code db)) = Some t ->
    user (snd (verifyOTPCode svc now email code db)) = Some u ->
    later / 1000 < now / 1000 + jwtExpire svc ->
    isTokenBlacklisted later t (fst (verifyOTPCode svc now email code db)) = false ->
    authenticate svc later (Bearer t) (fst (verifyOTPCode svc now email code db)) = Next u
    /\ u_emailVerified u = true /\ u_lastLogin u = Some now.
Proof.
  intros svc now email code db later t u Ht Hu Hl Hb.
  pose proof (verifyOTPCode_token_inv _ _ _ _ _ _ Ht) as Hs.
  destruct (verifyOTPCode svc now email code db) as [db' r] eqn:E.
  destruct (verifyOTPCode_success_inv _ _ _ _ _ _ _ E Hs) as (d & u0 & H1 & H2 & H3).
  rewrite (verifyOTPCode_login svc now email code db d u0 H1 H2 H3) in E.
  inversion E; subst; clear E. cbn [fst snd token user] in *.
  injection Ht as <-. injection Hu as <-.
  split; [|split; reflexivity].
  apply (authenticate_next svc later _ _
           {| Jwt.claims := {| Jwt.userId := u_id u0; Jwt.email := u_email u0;
                               Jwt.role := Some (u_role u0); Jwt.type := "access" |};
              Jwt.iat := now / 1000;
              Jwt.exp := Some (now / 1000 + jwtExpire svc) |}); [exact Hb| | |exact H3].
  - unfold generateAccessToken, Jwt.sign. rewrite verify_signed. cbn [Jwt.exp].
    destruct (Z.leb_spec (now / 1000 + jwtExpire svc) (later / 1000)); [lia|].
    reflexivity.
  - cbn [users setUsers setOtpCodes Jwt.userId Jwt.claims].
    apply findById_save; [|reflexivity].
    apply find_some in H2. tauto.
Qed.

Lemma login_token_authenticates_witness :
  token (snd (verifyOTPCode Sample.svc 1000 "a@b.rw" "123456" Sample.afterSend))
    = Some Sample.accessToken
  /\ user (snd (verifyOTPCode Sample.svc 1000 "a@b.rw" "123456" Sample.afterSend))
     = Some Sample.aliceLoggedIn
  /\ 5000 / 1000 < 1000 / 1000 + jwtExpire Sample.svc
  /\ isTokenBlacklisted 5000 Sample.accessToken
       (fst (verifyOTPCode Sample.svc 1000 "a@b.rw" "123456" Sample.afterSend)) = false
  /\ authenticate Sample.svc 5000 (Bearer Sample.accessToken)
       (fst (verifyOTPCode Sample.svc 1000 "a@b.rw" "123456" Sample.afterSend))
     = Next Sample.aliceLoggedIn.
Proof.
  assert (H1 : token (snd (verifyOTPCode Sample.svc 1000 "a@b.rw" "123456"
                             Sample.afterSend)) = Some Sample.accessToken)
    by (vm_compute; reflexivity).
  assert (H2 : user (snd (verifyOTPCode Sample.svc 1000 "a@b.rw" "123456"
                            Sample.afterSend)) = Some Sample.aliceLoggedIn)
    by (vm_compute; reflexivity).
  assert (H3 : 5000 / 1000 < 1000 / 1000 + jwtExpire Sample.svc)
    by (vm_compute; reflexivity).
  assert (H4 : isTokenBlacklisted 5000 Sample.accessToken
                 (fst (verifyOTPCode Sample.svc 1000 "a@b.rw" "123456"
                         Sample.afterSend)) = false)
    by (vm_compute; reflexivity).
  split; [exact H1|]. split; [exact H2|]. split; [exact H3|]. split; [exact H4|].
  exact (proj1 (login_token_authenticates Sample.svc 1000 "a@b.rw" "123456"
                  Sample.afterSend 5000 Sample.accessToken Sample.aliceLoggedIn
                  H1 H2 H3 H4)).
Defined.

(** ** Refreshing *)

Lemma verifyRefreshToken_inv svc now t p :
  verifyRefreshToken svc now t = Ok p <-> Jwt.verify t (jwtRefreshSecret svc) now = Ok p.
Proof.
  unfold verifyRefreshToken.
  destruct (Jwt.verify t (jwtRefreshSecret svc) now); split; congruence.
Qed.

Lemma isTokenBlacklisted_findOne now t db :
  isTokenBlacklisted now t db = false
  <-> TokenBlacklist.findOne t now (tokenBlacklist db) = None.
Proof.
  unfold isTokenBlacklisted.
  destruct (TokenBlacklist.findOne t now (tokenBlacklist db)); split; congruence.
Qed.

Lemma refreshAccessToken_ok svc now rt db p u :
  Jwt.verify rt (jwtRefreshSecret svc) now = Ok p ->
  isTokenBlacklisted now rt db = false ->
  User.findById (Jwt.userId (Jwt.claims p)) (users db) = Some u ->
  u_status u = active ->
  refreshAccessToken svc now rt db
  = {| r_success := true; r_token := Some (generateAccessToken svc now u);
       r_message := "Token refreshed successfully" |}.
Proof.
  intros Hv Hb Hu Hs. unfold refreshAccessToken.
  apply verifyRefreshToken_inv in Hv. apply isTokenBlacklisted_findOne in Hb.
  now rewrite Hv, Hb, Hu, Hs.
Qed.

Lemma refreshAccessToken_success_inv svc now rt db :
  r_success (refreshAccessToken svc now rt db) = true ->
  exists p u,
    Jwt.verify rt (jwtRefreshSecret svc) now = Ok p
    /\ isTokenBlacklisted now rt db = false
    /\ User.findById (Jwt.userId (Jwt.claims p)) (users db) = Some u
    /\ u_status u = active.
Proof.
  unfold refreshAccessToken.
  destruct (verifyRefreshToken svc now rt) as [p|m] eqn:Hv; [|discriminate].
  destruct (TokenBlacklist.findOne rt now (tokenBlacklist db)) eqn:Hb; [discriminate|].
  destruct (User.findById _ _) as [u|] eqn:Hu; [|discriminate].
  destruct (Status_eqb (u_status u) active) eqn:Hs; [|discriminate].
  intros _. exists p, u. repeat split; auto.
  - now apply verifyRefreshToken_inv.
  - now apply isTokenBlacklisted_findOne.
  - now apply Status_eqb_active.
Qed.

(** X7: [refreshAccessToken] succeeds exactly when the token verifies under
    the refresh secret, has no unexpired blacklist record, and the user
    under its subject id exists and is active; it then returns a new access
    token for that user, issued at that instant, and nothing else (no new
    refresh token).  The signature comes first: a token that does not
    verify gets 'Failed to refresh token' whether it is blacklisted or
    not. *)
Theorem refreshAccessToken_succeeds_iff :
  forall svc now rt db,
    (r_success (refreshAccessToken svc now rt db) = true
     <-> exists p u,
           Jwt.verify rt (jwtRefreshSecret svc) now = Ok p
           /\ isTokenBlacklisted now rt db = false
           /\ User.findById (Jwt.userId (Jwt.claims p)) (users db) = Some u
           /\ u_status u = active)
    /\ (forall p u,
          Jwt.verify rt (jwtRefreshSecret svc) now = Ok p ->
          isTokenBlacklisted now rt db = false ->
          User.findById (Jwt.userId (Jwt.claims p)) (users db) = Some u ->
          u_status u = active ->
          refreshAccessToken svc now rt db
          = {| r_success := true; r_token := Some (generateAccessToken svc now u);
               r_message := "Token refreshed successfully" |})
    /\ (forall m, Jwt.verify rt (jwtRefreshSecret svc) now = Throw m ->
                  refreshAccessToken svc now rt db
                  = refreshFailure "Failed to refresh token").
Proof.
  intros svc now rt db. split; [split|split].
  - apply refreshAccessToken_success_inv.
  - intros (p & u & Hv & Hb & Hu & Hs).
    now rewrite (refreshAccessToken_ok svc now rt db p u Hv Hb Hu Hs).
  - apply refreshAccessToken_ok.
  - intros m Hm. unfold refreshAccessToken, verifyRefreshToken. now rewrite Hm.
Qed.

Lemma logout_blacklists svc loggedOutAt t db h now e :
  blacklistFaithful db ->
  o_success (snd (logout loggedOutAt t db)) = true ->
  (exists p, Jwt.decode t = Some p /\ Jwt.exp p = Some e) ->
  now < e * 1000 ->
  Forall (fun te => fst te <= now) h ->
  isTokenBlacklisted now t (run svc h (fst (logout loggedOutAt t db))) = true.
Proof.
  intros Hf Hs (p & Hp & Hpe) Hn Hh.
  apply (revokedUntil_blacklisted t e); [|exact Hn].
  apply run_revokedUntil.
  - eapply Forall_impl; [|exact Hh]. cbn beta. intros te Hte. lia.
  - apply logout_revokedUntil; [exact Hf|].
    apply logout_success_revocable in Hs as (e' & (p' & Hp' & Hpe') & Hz & Hv).
    assert (e' = e) by congruence. subst e'.
    split; [now exists p|now split].
Qed.



Lemma logout_result now t db :
  fst (logout now t db) = db
  \/ exists e, fst (logout now t db)
               = insertedBlacklist
                   (tokenBlacklist db ++ [blacklistEntry (nextId db) t e now]) db.
Proof.
  destruct (o_success (snd (logout now t db))) eqn:E.
  - apply logout_success_revocable in E as [e He].
    destruct (logout_revocable now t e db He) as [[_ ->]|[_ ->]];
      [now left|right; now exists e].
  - left. revert E. unfold logout.
    destruct (Jwt.decode t) as [p|]; [|reflexivity].
    destruct (Jwt.exp p) as [[|e|e]|]; try reflexivity;
      (destruct (TokenBlacklist.save _ _) as [l|[]]; [discriminate|reflexivity..]).
Qed.

Lemma logout_users now t db : users (fst (logout now t db)) = users db.
Proof. destruct (logout_result now t db) as [->|[e ->]]; reflexivity. Qed.

Lemma find_app_miss {A} (f : A -> bool) l x :
  f x = false -> find f (l ++ [x]) = find f l.
Proof.
  intros H. induction l as [|a l IH]; cbn [app find].
  - now rewrite H.
  - now destruct (f a).
Qed.

Lemma logout_other_token now later t t' db :
  t' <> t ->
  isTokenBlacklisted later t' (fst (logout now t db)) = isTokenBlacklisted later t' db.
Proof.
  intros Hne. destruct (logout_result now t db) as [->|[e ->]]; [reflexivity|].
  unfold isTokenBlacklisted, TokenBlacklist.findOne.
  cbn [tokenBlacklist insertedBlacklist]. rewrite find_app_miss; [reflexivity|].
  unfold TokenBlacklist.hasToken. cbn [bl_token blacklistEntry].
  destruct (Jwt.Token_eqb t t') eqn:E; [|reflexivity].
  apply Token_eqb_eq in E. congruence.
Qed.

Lemma refreshAccessToken_ext svc now rt db db' :
  users db' = users db ->
  isTokenBlacklisted now rt db' = isTokenBlacklisted now rt db ->
  refreshAccessToken svc now rt db' = refreshAccessToken svc now rt db.
Proof.
  intros Hu Hb. unfold refreshAccessToken, isTokenBlacklisted in *. rewrite Hu.
  destruct (verifyRefreshToken svc now rt); [|reflexivity].
  destruct (TokenBlacklist.findOne rt now (tokenBlacklist db')),
           (TokenBlacklist.findOne rt now (tokenBlacklist db));
    try discriminate; reflexivity.
Qed.

(** X9: [logout] revokes the one token it is given and no other.  In
    particular, logging out with the access token of a session leaves the
    refresh token of that session as usable as it was:
    [refreshAccessToken] answers the same before and after, and every other
    token keeps its blacklist status. *)
Theorem logout_revokes_one_token_only :
  forall svc issuedAt u loggedOutAt now db,
    refreshAccessToken svc now (generateRefreshToken svc issuedAt u)
      (fst (logout loggedOutAt (generateAccessToken svc issuedAt u) db))
    = refreshAccessToken svc now (generateRefreshToken svc issuedAt u) db
    /\ (forall t t', t' <> t ->
          isTokenBlacklisted now t' (fst (logout loggedOutAt t db))
          = isTokenBlacklisted now t' db).
Proof.
  intros svc issuedAt u loggedOutAt now db. split.
  - apply refreshAccessToken_ext; [apply logout_users|].
    apply logout_other_token. intros H.
    exact (access_is_not_refresh svc issuedAt issuedAt u u (eq_sym H)).
  - intros t t' Hne. now apply logout_other_token.
Qed.

(** X10: the access token [refreshAccessToken] hands out is good for
    requests: on the same database, [authenticate] lets a request bearing
    it through, as the user the refresh token was issued for, at any instant
    before the second [now/1000 + jwtExpire], provided that token string is
    not on the blacklist. *)
Theorem refreshed_token_authenticates :
  forall svc now rt db later t,
    r_token (refreshAccessToken svc now rt db) = Some t ->
    later / 1000 < now / 1000 + jwtExpire svc ->
    isTokenBlacklisted later t db = false ->
    exists p u,
      Jwt.verify rt (jwtRefreshSecret svc) now = Ok p
      /\ User.findById (Jwt.userId (Jwt.claims p)) (users db) = Some u
      /\ authenticate svc later (Bearer t) db = Next u.
Proof.
  intros svc now rt db later t Ht Hl Hb.
  assert (Hs : r_success (refreshAccessToken svc now rt db) = true).
  { revert Ht. unfold refreshAccessToken.
    destruct (verifyRefreshToken svc now rt); [|discriminate].
    destruct (TokenBlacklist.findOne _ _ _); [discriminate|].
    destruct (User.findById _ _); [|discriminate].
    destruct (negb _); [discriminate|reflexivity]. }
  destruct (refreshAccessToken_success_inv _ _ _ _ Hs) as (p & u & Hv & Hb' & Hu & Ha).
  rewrite (refreshAccessToken_ok svc now rt db p u Hv Hb' Hu Ha) in Ht.
  cbn [r_token] in Ht. injection Ht as <-.
  exists p, u. split; [exact Hv|]. split; [exact Hu|].
  apply (authenticate_next svc later _ _
           {| Jwt.claims := {| Jwt.userId := u_id u; Jwt.email := u_email u;
                               Jwt.role := Some (u_role u); Jwt.type := "access" |};
              Jwt.iat := now / 1000;
              Jwt.exp := Some (now / 1000 + jwtExpire svc) |}); [exact Hb| | |exact Ha].
  - unfold generateAccessToken, Jwt.sign. rewrite verify_signed. cbn [Jwt.exp].
    destruct (Z.leb_spec (now / 1000 + jwtExpire svc) (later / 1000)); [lia|].
    reflexivity.
  - cbn [Jwt.userId Jwt.claims]. unfold User.findById in *.
    pose proof (find_some _ _ Hu) as [_ Hid]. cbn beta in Hid.
    apply String.eqb_eq in Hid. now rewrite Hid.
Qed.

Lemma refreshed_token_authenticates_witness :
  r_token (refreshAccessToken Sample.svc 2000 Sample.refreshTokenOfLogin Sample.afterLogin)
    = Some (generateAccessToken Sample.svc 2000 Sample.aliceLoggedIn)
  /\ 5000 / 1000 < 2000 / 1000 + jwtExpire Sample.svc
  /\ isTokenBlacklisted 5000 (generateAccessToken Sample.svc 2000 Sample.aliceLoggedIn)
       Sample.afterLogin = false
  /\ exists p u,
       Jwt.verify Sample.refreshTokenOfLogin (jwtRefreshSecret Sample.svc) 2000 = Ok p
       /\ User.findById (Jwt.userId (Jwt.claims p)) (users Sample.afterLogin) = Some u
       /\ authenticate Sample.svc 5000
            (Bearer (generateAccessToken Sample.svc 2000 Sample.aliceLoggedIn))
            Sample.afterLogin = Next u.
Proof.
  assert (H1 : r_token (refreshAccessToken Sample.svc 2000 Sample.refreshTokenOfLogin
                          Sample.afterLogin)
               = Some (generateAccessToken Sample.svc 2000 Sample.aliceLoggedIn))
    by (vm_compute; reflexivity).
  assert (H2 : 5000 / 1000 < 2000 / 1000 + jwtExpire Sample.svc)
    by (vm_compute; reflexivity).
  assert (H3 : isTokenBlacklisted 5000
                 (generateAccessToken Sample.svc 2000 Sample.aliceLoggedIn)
                 Sample.afterLogin = false) by (vm_compute; reflexivity).
  split; [exact H1|]. split; [exact H2|]. split; [exact H3|].
  exact (refreshed_token_authenticates Sample.svc 2000 Sample.refreshTokenOfLogin
           Sample.afterLogin 5000 _ H1 H2 H3).
Defined.

(** ** Roles and permissions *)

Lemma hasRole_admin u r : u_role u = admin -> hasRole u r = true.
Proof.
  intros H. unfold hasRole. rewrite H. cbn [roleName].
  destruct (r =? "admin")%string; [reflexivity|]. apply orb_true_r.
Qed.

Lemma hasRole_citizen u r :
  u_role u = citizen -> hasRole u r = (r =? "citizen")%string.
Proof.
  intros H. unfold hasRole. rewrite H. cbn [roleName].
  destruct (String.eqb_spec r "admin") as [->|Hn]; [reflexivity|].
  rewrite orb_false_r. apply String.eqb_sym.
Qed.

(** X11: [hasRole(user, requiredRole)] holds exactly when the user is an
    administrator, whatever role is asked for (a role that does not exist
    included), or the user is a citizen and the role asked for is
    'citizen'. *)
Theorem hasRole_iff :
  forall u r,
    hasRole u r = true
    <-> u_role u = admin \/ (u_role u = citizen /\ r = "citizen").
Proof.
  intros u r. destruct (u_role u) eqn:E.
  - rewrite (hasRole_admin u r E). split; [now left|reflexivity].
  - rewrite (hasRole_citizen u r E), String.eqb_eq. split.
    + intros ->. now right.
    + now intros [H|[_ H]].
Qed.

Lemma existsb_hasRole_admin u roles :
  u_role u = admin -> existsb (hasRole u) roles = negb (match roles with [] => true | _ => false end).
Proof.
  intros H. destruct roles as [|r l]; [reflexivity|].
  cbn [existsb]. now rewrite (hasRole_admin u r H).
Qed.

Lemma existsb_hasRole_citizen u roles :
  u_role u = citizen -> existsb (hasRole u) roles = includesString roles "citizen".
Proof.
  intros H. unfold includesString. induction roles as [|r l IH]; [reflexivity|].
  cbn [existsb]. now rewrite (hasRole_citizen u r H), IH.
Qed.

Lemma includesString_In l s : includesString l s = true <-> In s l.
Proof.
  unfold includesString. rewrite existsb_exists. split.
  - intros (x & Hx & E). apply String.eqb_eq in E. now subst.
  - intros H. exists s. split; [exact H|apply String.eqb_refl].
Qed.

(** X12: [authorize(...roles)] refuses a request without a user with 401;
    it lets an administrator through for any list of roles but the empty
    one, a citizen exactly when 'citizen' is among the roles, and answers
    403 otherwise.  With no role listed nobody passes, administrators
    included. *)
Theorem authorize_passes_iff :
  forall roles u,
    authorize roles None = Refuse 401 "Authentication required"
    /\ (authorize roles (Some u) = Continue
        <-> (u_role u = admin /\ roles <> [])
            \/ (u_role u = citizen /\ In "citizen" roles))
    /\ (authorize roles (Some u) = Continue
        \/ authorize roles (Some u) = Refuse 403 "Insufficient permissions").
Proof.
  intros roles u. split; [reflexivity|]. unfold authorize. split.
  - destruct (u_role u) eqn:E.
    + rewrite (existsb_hasRole_admin u roles E).
      destruct roles as [|r l]; cbn [negb]; split; try discriminate.
      * intros [[_ H]|[H _]]; [now elim H|discriminate].
      * intros _. left. split; [reflexivity|discriminate].
      * reflexivity.
    + rewrite (existsb_hasRole_citizen u roles E).
      destruct (includesString roles "citizen") eqn:Hi; split; try discriminate.
      * intros _. right. split; [reflexivity|]. now apply includesString_In.
      * reflexivity.
      * intros [[H _]|[_ H]]; [discriminate|].
        apply includesString_In in H. congruence.
  - destruct (existsb (hasRole u) roles); [now left|now right].
Qed.

(** X13: [adminOnly] and [authorize('admin')] decide every request alike:
    both answer 401 without a user, 403 to a citizen, and let an
    administrator through (only the wording of the 403 differs). *)
Theorem adminOnly_is_authorize_admin :
  forall reqUser,
    match adminOnly reqUser, authorize ["admin"] reqUser with
    | Continue, Continue => True
    | Refuse s m, Refuse s' m' =>
        s = s' /\ (s = 401 \/ (s = 403 /\ m = "Admin access required"
                               /\ m' = "Insufficient permissions"))
    | _, _ => False
    end
    /\ (adminOnly reqUser = Continue
        <-> exists u, reqUser = Some u /\ u_role u = admin).
Proof.
  intros [u|]; unfold adminOnly, authorize.
  - destruct (u_role u) eqn:E.
    + rewrite (existsb_hasRole_admin u _ E). cbn.
      split; [exact I|]. split; [|reflexivity].
      intros _. exists u. now split.
    + rewrite (existsb_hasRole_citizen u _ E). cbn.
      split; [split; [reflexivity|right; repeat split]|].
      split; [discriminate|]. intros (u' & Hu & Hr). injection Hu as <-. congruence.
  - cbn. split; [split; [reflexivity|now left]|].
    split; [discriminate|]. intros (u' & Hu & _). discriminate.
Qed.

Lemma canAccess_admin u resource action :
  u_role u = admin -> canAccess u resource action = Ok true.
Proof. intros H. unfold canAccess. now rewrite H. Qed.

Lemma canAccess_citizen_inherited u resource action :
  u_role u = citizen -> In resource inheritedKeys ->
  canAccess u resource action = Throw "allowedActions.includes is not a function".
Proof.
  intros H Hin. unfold canAccess. rewrite H.
  cbn [In inheritedKeys] in Hin.
  repeat (destruct Hin as [<-|Hin]; [reflexivity|]). contradiction.
Qed.

Lemma lookupKey_In {A} k (l : list (string * A)) v :
  lookupKey k l = Some v -> In (k, v) l.
Proof.
  induction l as [|[k' v'] l IH]; cbn [lookupKey]; [discriminate|].
  destruct (String.eqb_spec k' k) as [->|_].
  - intros [= ->]. now left.
  - intros H. right. now apply IH.
Qed.

Lemma canAccess_citizen_may u resource action :
  u_role u = citizen -> In (resource, action) citizenMay ->
  canAccess u resource (Some action) = Ok true.
Proof.
  intros H Hin. unfold canAccess. rewrite H.
  cbn [In citizenMay] in Hin.
  repeat (destruct Hin as [[= <- <-]|Hin]; [reflexivity|]). contradiction.
Qed.

Lemma canAccess_citizen_true u resource action :
  u_role u = citizen -> canAccess u resource (Some action) = Ok true ->
  In (resource, action) citizenMay.
Proof.
  intros H. unfold canAccess. rewrite H.
  destruct (lookupKey resource citizenAccess) as [allowed|] eqn:E.
  - intros [= Hi]. apply includesString_In in Hi. apply lookupKey_In in E.
    cbn [In citizenAccess] in E. cbn [In citizenMay].
    repeat (destruct E as [[= <- <-]|E];
            [cbn [In] in Hi; intuition (subst; auto)|]).
    contradiction.
  - destruct (includesString inheritedKeys resource); discriminate.
Qed.

Lemma canAccess_citizen_throws u resource action m :
  u_role u = citizen -> canAccess u resource action = Throw m ->
  In resource inheritedKeys.
Proof.
  intros H. unfold canAccess. rewrite H.
  destruct (lookupKey resource citizenAccess); [discriminate|].
  destruct (includesString inheritedKeys resource) eqn:E; [|discriminate].
  intros _. now apply includesString_In.
Qed.

(** X14: [canAccess] grants an administrator everything.  To a citizen it
    grants exactly six things: reading news, reading and creating feedback,
    creating help requests, reading and updating the profile; nothing else,
    so no delete on anything and nothing on a resource it does not know.
    The action defaults to 'read'.  For a citizen and a resource named like
    a property every object inherits ('constructor', 'toString', ...) the
    call does not answer but throws. *)
Theorem canAccess_table :
  forall u resource action,
    (u_role u = admin -> forall a, canAccess u resource a = Ok true)
    /\ (u_role u = citizen ->
        (canAccess u resource (Some action) = Ok true
         <-> In (resource, action) citizenMay)
        /\ ((exists m, canAccess u resource (Some action) = Throw m)
            <-> In resource inheritedKeys))
    /\ canAccess u resource None = canAccess u resource (Some "read").
Proof.
  intros u resource action. split; [|split; [|reflexivity]].
  - intros H a. now apply canAccess_admin.
  - intros H. split; split.
    + now apply canAccess_citizen_true.
    + now apply canAccess_citizen_may.
    + intros [m Hm]. exact (canAccess_citizen_throws _ _ _ _ H Hm).
    + intros Hi. eexists. now apply canAccess_citizen_inherited.
Qed.

(** ** The per-user rate limit *)






(** ** The statics of the models and the service *)

(** X16: for an active user, [sendOTPCode] does to the code collection
    exactly what the model's own [createOTP] does (remove the unconsumed
    codes of the email, then insert the new one if it validates), and it
    reports success exactly when [createOTP] returns the saved document. *)
Theorem sendOTPCode_stores_like_createOTP :
  forall now k email db u,
    User.findOne (Js.toLowerCase email) (users db) = Some u ->
    u_status u = active ->
    otpCodes (fst (sendOTPCode now k email db))
    = fst (createOTP now k email (nextId db) (otpCodes db))
    /\ (snd (sendOTPCode now k email db)
        = Ok {| o_success := true; o_message := "OTP code sent to your email address" |}
        <-> exists d, snd (createOTP now k email (nextId db) (otpCodes db)) = Ok d).
Proof.
  intros now k email db u Hu Hs. unfold sendOTPCode, createOTP.
  rewrite Hu, Hs. cbn [Status_eqb negb nextId setOtpCodes].
  destruct (OTPCode.valid _); cbn [fst snd otpCodes insertOtpCode setOtpCodes].
  - split; [reflexivity|]. split; [intros _; now eexists|reflexivity].
  - split; [reflexivity|]. split; [discriminate|intros [d Hd]; discriminate].
Qed.

Lemma sendOTPCode_stores_like_createOTP_witness :
  User.findOne (Js.toLowerCase "a@b.rw") (users (emptyDb [Sample.alice])) = Some Sample.alice
  /\ u_status Sample.alice = active
  /\ otpCodes (fst (sendOTPCode 0 23456 "a@b.rw" (emptyDb [Sample.alice])))
     = fst (createOTP 0 23456 "a@b.rw" (nextId (emptyDb [Sample.alice]))
              (otpCodes (emptyDb [Sample.alice]))).
Proof.
  assert (H1 : User.findOne (Js.toLowerCase "a@b.rw") (users (emptyDb [Sample.alice]))
               = Some Sample.alice) by (vm_compute; reflexivity).
  assert (H2 : u_status Sample.alice = active) by reflexivity.
  split; [exact H1|]. split; [exact H2|].
  exact (proj1 (sendOTPCode_stores_like_createOTP 0 23456 "a@b.rw"
                  (emptyDb [Sample.alice]) Sample.alice H1 H2)).
Defined.

Lemma save_consumes email code now docs d :
  (List.length (filter (OTPCode.pending email) docs) <= 1)%nat ->
  OTPCode.findOne email code now docs = Some d ->
  forall x, In x (OTPCode.save (OTPCode.setVerified d) docs) ->
            otp_email x = castEmail email -> otp_verified x = true.
Proof.
  intros Hp Hd x Hx Hxe.
  destruct (findOne_usable _ _ _ _ _ Hd) as (Hin & He & _ & Hv & _).
  apply in_save in Hx as [->|[Hx Hid]]; [reflexivity|].
  destruct (otp_verified x) eqn:Hxv; [reflexivity|]. exfalso.
  assert (Hpx : forall y, In y docs -> otp_email y = castEmail email ->
                          otp_verified y = false ->
                          In y (filter (OTPCode.pending email) docs)).
  { intros y Hy Hye Hyv. apply filter_In. split; [exact Hy|].
    unfold OTPCode.pending. now rewrite Hye, String.eqb_refl, Hyv. }
  pose proof (two_members x d _ (Hpx x Hx Hxe Hxv) (Hpx d Hin He Hv)) as H2m.
  assert (x <> d) by congruence. specialize (H2m H). lia.
Qed.

(** X17: the model's [verifyCode] is single-use on a collection with at
    most one unconsumed code for the email: when it returns a document, that
    document is the matching record with [verified] set and is what the
    collection now holds, and every later [verifyCode], with any code for
    that email and at any instant, returns null. *)
Theorem verifyCode_single_use :
  forall now email code docs d,
    (List.length (filter (OTPCode.pending email) docs) <= 1)%nat ->
    snd (verifyCode now email code docs) = Some d ->
    otp_verified d = true /\ otp_email d = castEmail email /\ otp_code d = code
    /\ now < otp_expiresAt d
    /\ In d (fst (verifyCode now email code docs))
    /\ (forall later code',
          verifyCode later email code' (fst (verifyCode now email code docs))
          = (fst (verifyCode now email code docs), None)).
Proof.
  intros now email code docs d Hp Hs.
  destruct (OTPCode.findOne email code now docs) as [d0|] eqn:Hd;
    [|unfold verifyCode in Hs; rewrite Hd in Hs; discriminate].
  assert (E : verifyCode now email code docs
              = (OTPCode.save (OTPCode.setVerified d0) docs,
                 Some (OTPCode.setVerified d0)))
    by (unfold verifyCode; now rewrite Hd).
  rewrite E in *. cbn [fst snd] in *. injection Hs as <-.
  destruct (findOne_usable _ _ _ _ _ Hd) as (Hin & He & Hc & Hv & Hl).
  cbn [otp_verified otp_email otp_code otp_expiresAt OTPCode.setVerified].
  repeat (split; [easy|]).
  split; [now apply save_keeps_member|].
  intros later code'. unfold verifyCode, OTPCode.findOne.
  rewrite (find_all_false (OTPCode.usable email code' later)); [reflexivity|].
  intros x Hx. apply usable_false_cases.
  destruct (string_dec (otp_email x) (castEmail email)) as [Hxe|Hxe]; [|now left].
  right; right; right. exact (save_consumes email code now docs d0 Hp Hd x Hx Hxe).
Qed.

Lemma verifyCode_single_use_witness :
  (List.length (filter (OTPCode.pending "a@b.rw") (otpCodes Sample.afterSend)) <= 1)%nat
  /\ snd (verifyCode 1000 "a@b.rw" "123456" (otpCodes Sample.afterSend))
     = Some Sample.consumed
  /\ verifyCode 2000 "a@b.rw" "123456"
       (fst (verifyCode 1000 "a@b.rw" "123456" (otpCodes Sample.afterSend)))
     = (fst (verifyCode 1000 "a@b.rw" "123456" (otpCodes Sample.afterSend)), None).
Proof.
  assert (H1 : (List.length (filter (OTPCode.pending "a@b.rw")
                               (otpCodes Sample.afterSend)) <= 1)%nat)
    by (vm_compute; lia).
  assert (H2 : snd (verifyCode 1000 "a@b.rw" "123456" (otpCodes Sample.afterSend))
               = Some Sample.consumed) by (vm_compute; reflexivity).
  split; [exact H1|]. split; [exact H2|].
  exact (proj2 (proj2 (proj2 (proj2 (proj2
           (verifyCode_single_use 1000 "a@b.rw" "123456" (otpCodes Sample.afterSend)
              Sample.consumed H1 H2))))) 2000 "123456").
Defined.

(** X18: the instance method [verify()] is laxer than the lookup every
    verification goes through.  It throws only once the clock has passed
    [expiresAt], so at the very instant of expiry it still accepts, and it
    does not look at [verified], so it accepts a consumed code again; the
    lookup returns neither such document. *)
Theorem verify_method_laxer_than_lookup :
  forall now d docs email code,
    now <= otp_expiresAt d ->
    otp_verified d = true \/ now = otp_expiresAt d ->
    snd (verifyMethod now d docs) = Ok (OTPCode.setVerified d)
    /\ OTPCode.findOne email code now docs <> Some d.
Proof.
  intros now d docs email code Hle H. split.
  - unfold verifyMethod, isExpired.
    destruct (Z.ltb_spec (otp_expiresAt d) now); [lia|reflexivity].
  - destruct H as [Hv| ->].
    + now apply consumed_record_never_picked.
    + apply expired_record_never_picked. lia.
Qed.

Lemma verify_method_laxer_than_lookup_witness :
  1000 <= otp_expiresAt Sample.consumed
  /\ (otp_verified Sample.consumed = true \/ 1000 = otp_expiresAt Sample.consumed)
  /\ snd (verifyMethod 1000 Sample.consumed (otpCodes Sample.afterLogin))
     = Ok (OTPCode.setVerified Sample.consumed)
  /\ OTPCode.findOne "a@b.rw" "123456" 1000 (otpCodes Sample.afterLogin)
     <> Some Sample.consumed.
Proof.
  assert (H1 : 1000 <= otp_expiresAt Sample.consumed) by (vm_compute; discriminate).
  assert (H2 : otp_verified Sample.consumed = true
               \/ 1000 = otp_expiresAt Sample.consumed) by (left; reflexivity).
  split; [exact H1|]. split; [exact H2|].
  exact (verify_method_laxer_than_lookup 1000 Sample.consumed
           (otpCodes Sample.afterLogin) "a@b.rw" "123456" H1 H2).
Defined.

(** X19: for a token with a non-zero [exp] claim, [logout] does to the
    blacklist exactly what the model's [blacklistToken(token, exp * 1000)]
    does, and succeeds exactly when [blacklistToken] returns normally.
    [blacklistToken] is idempotent: called again for a token it has listed,
    it returns null and leaves the collection as it is. *)
Theorem logout_stores_like_blacklistToken :
  forall now t db p e,
    Jwt.decode t = Some p -> Jwt.exp p = Some e -> e <> 0 ->
    tokenBlacklist (fst (logout now t db))
    = fst (blacklistToken now t (e * 1000) (nextId db) (tokenBlacklist db))
    /\ (o_success (snd (logout now t db)) = true
        <-> exists r, snd (blacklistToken now t (e * 1000) (nextId db)
                             (tokenBlacklist db)) = Ok r)
    /\ (forall later id x docs,
          Js.validDate x = true ->
          blacklistToken later t x id (fst (blacklistToken now t x (nextId db) docs))
          = (fst (blacklistToken now t x (nextId db) docs), Ok None)).
Proof.
  intros now t db p e Hp He Hz. split; [|split].
  - unfold logout, blacklistToken. rewrite Hp, He.
    destruct e as [|e0|e0]; [contradiction| |];
      (destruct (TokenBlacklist.save _ _) as [l|err]; [reflexivity|];
       destruct err; reflexivity).
  - unfold logout, blacklistToken. rewrite Hp, He.
    destruct e as [|e0|e0]; [contradiction| |];
      (destruct (TokenBlacklist.save _ _) as [l|err];
       [split; [intros _; now eexists|reflexivity]|];
       destruct err; cbn;
       (split; [try discriminate; intros _; now eexists
               |try reflexivity; intros [r Hr]; discriminate])).
  - intros later id x docs Hx.
    assert (Hsave : forall i n l,
              TokenBlacklist.save
                {| bl_id := i; bl_token := t; bl_expiresAt := x; bl_createdAt := n |} l
              = if existsb (TokenBlacklist.hasToken t) l then inr TokenBlacklist.DuplicateKey
                else inl (l ++ [{| bl_id := i; bl_token := t; bl_expiresAt := x;
                                   bl_createdAt := n |}])).
    { intros i n l. unfold TokenBlacklist.save. cbn [bl_expiresAt bl_token].
      now rewrite Hx. }
    unfold blacklistToken. rewrite !Hsave.
    destruct (existsb (TokenBlacklist.hasToken t) docs) eqn:Ex;
      cbn [fst TokenBlacklist.code].
    + now rewrite Ex.
    + rewrite existsb_app, Ex. cbn [existsb orb].
      unfold TokenBlacklist.hasToken at 1. cbn [bl_token].
      now rewrite Token_eqb_refl.
Qed.

Lemma logout_stores_like_blacklistToken_witness :
  Jwt.decode Sample.accessToken = Some Sample.accessPayload
  /\ Jwt.exp Sample.accessPayload = Some 86401
  /\ 86401 <> 0
  /\ tokenBlacklist (fst (logout 2000 Sample.accessToken Sample.afterLogin))
     = fst (blacklistToken 2000 Sample.accessToken (86401 * 1000)
              (nextId Sample.afterLogin) (tokenBlacklist Sample.afterLogin)).
Proof.
  assert (H1 : Jwt.decode Sample.accessToken = Some Sample.accessPayload)
    by (vm_compute; reflexivity).
  assert (H2 : Jwt.exp Sample.accessPayload = Some 86401) by reflexivity.
  assert (H3 : 86401 <> 0) by lia.
  split; [exact H1|]. split; [exact H2|]. split; [exact H3|].
  exact (proj1 (logout_stores_like_blacklistToken 2000 Sample.accessToken
                  Sample.afterLogin Sample.accessPayload 86401 H1 H2 H3)).
Defined.

(** ** Purging the blacklist *)

Lemma find_filter {A} (p q : A -> bool) l :
  (forall x, p x = true -> q x = true) -> find p (filter q l) = find p l.
Proof.
  intros H. induction l as [|a l IH]; [reflexivity|]. cbn [filter find].
  destruct (q a) eqn:Eq; cbn [find].
  - now rewrite IH.
  - destruct (p a) eqn:Ep; [|exact IH]. rewrite (H a Ep) in Eq. discriminate.
Qed.

Lemma filter_idem {A} (f : A -> bool) l : filter f (filter f l) = filter f l.
Proof.
  induction l as [|a l IH]; [reflexivity|]. cbn [filter].
  destruct (f a) eqn:E; [|exact IH]. cbn [filter]. now rewrite E, IH.
Qed.

Lemma filter_split_length {A} (f : A -> bool) l :
  (List.length (filter f l) + List.length (filter (fun x => negb (f x)) l))%nat
  = List.length l.
Proof.
  induction l as [|a l IH]; [reflexivity|]. cbn [filter].
  destruct (f a); cbn [negb List.length]; lia.
Qed.

(** X20: [cleanExpiredTokens] at [now] removes exactly the blacklist
    records whose expiry is at or before [now]: the records left are those
    that expire later, all of them.  Running it twice is running it once,
    users and codes are untouched, and no verdict changes: at [now] and at
    any later instant [isTokenBlacklisted] answers for every token what it
    answered before the purge.  The model's [cleanExpired] leaves the same
    collection and reports as deleted what is missing. *)
Theorem cleanExpiredTokens_purges :
  forall now db,
    (forall d, In d (tokenBlacklist (cleanExpiredTokens now db))
               <-> In d (tokenBlacklist db) /\ now < bl_expiresAt d)
    /\ cleanExpiredTokens now (cleanExpiredTokens now db) = cleanExpiredTokens now db
    /\ users (cleanExpiredTokens now db) = users db
    /\ otpCodes (cleanExpiredTokens now db) = otpCodes db
    /\ (forall later t, now <= later ->
          isTokenBlacklisted later t (cleanExpiredTokens now db)
          = isTokenBlacklisted later t db)
    /\ fst (cleanExpired now (tokenBlacklist db))
       = tokenBlacklist (cleanExpiredTokens now db)
    /\ (snd (cleanExpired now (tokenBlacklist db))
        + List.length (tokenBlacklist (cleanExpiredTokens now db)))%nat
       = List.length (tokenBlacklist db).
Proof.
  intros now db. unfold cleanExpiredTokens, cleanExpired, TokenBlacklist.deleteExpired.
  cbn [tokenBlacklist users otpCodes setBlacklist fst snd].
  split; [|split; [|split; [|split; [|split; [|split]]]]]; try reflexivity.
  - intros d. rewrite filter_In, negb_true_iff, Z.leb_gt. reflexivity.
  - unfold setBlacklist. cbn [tokenBlacklist users otpCodes nextId].
    now rewrite filter_idem.
  - intros later t Hl. unfold isTokenBlacklisted, TokenBlacklist.findOne.
    cbn [tokenBlacklist setBlacklist]. rewrite find_filter; [reflexivity|].
    intros x Hx. apply andb_true_iff in Hx as [_ Hx]. apply Z.ltb_lt in Hx.
    apply negb_true_iff, Z.leb_gt. lia.
  - rewrite <- (filter_split_length (fun d => bl_expiresAt d <=? now) (tokenBlacklist db)).
    reflexivity.
Qed.

(** ** Codes: superseded, guessed, refused *)

(** X21: a new code supersedes whatever was there.  Right after a
    successful [sendOTPCode(email)], whatever the store held before, the
    digits just issued are the only ones that can log the email in: every
    other code is answered 'Invalid or expired OTP code', at any instant. *)
Theorem new_code_supersedes :
  forall svc now k email db later code,
    snd (sendOTPCode now k email db)
      = Ok {| o_success := true; o_message := "OTP code sent to your email address" |} ->
    code <> generateCode k ->
    verifyOTPCode svc later email code (fst (sendOTPCode now k email db))
    = (fst (sendOTPCode now k email db), invalidOrExpiredCode).
Proof.
  intros svc now k email db later code Hs Hc.
  apply verifyOTPCode_no_code, find_all_false. intros d Hd.
  apply usable_false_cases.
  destruct (sendOTPCode_cases now k email db) as [[_ [m E]]|[[_ E]|[E _]]];
    try (rewrite E in Hs; discriminate).
  rewrite E in Hd. cbn [otpCodes setOtpCodes insertOtpCode] in Hd.
  apply in_app_or in Hd as [Hd|[<-|[]]].
  - apply filter_In in Hd as [_ Hd]. apply negb_true_iff in Hd.
    unfold OTPCode.pending in Hd.
    destruct (String.eqb_spec (otp_email d) (castEmail email)); [|now left].
    right; right; right. now destruct (otp_verified d).
  - right; left. cbn [otp_code OTPCode.create]. congruence.
Qed.

Lemma new_code_supersedes_witness :
  snd (sendOTPCode 2000 777 "a@b.rw" Sample.afterSend)
    = Ok {| o_success := true; o_message := "OTP code sent to your email address" |}
  /\ "123456" <> generateCode 777
  /\ verifyOTPCode Sample.svc 3000 "a@b.rw" "123456"
       (fst (sendOTPCode 2000 777 "a@b.rw" Sample.afterSend))
     = (fst (sendOTPCode 2000 777 "a@b.rw" Sample.afterSend), invalidOrExpiredCode).
Proof.
  assert (H1 : snd (sendOTPCode 2000 777 "a@b.rw" Sample.afterSend)
               = Ok {| o_success := true;
                       o_message := "OTP code sent to your email address" |})
    by (vm_compute; reflexivity).
  assert (H2 : "123456" <> generateCode 777) by (vm_compute; discriminate).
  split; [exact H1|]. split; [exact H2|].
  exact (new_code_supersedes Sample.svc 2000 777 "a@b.rw" Sample.afterSend 3000
           "123456" H1 H2).
Defined.

Lemma verifyOTPCode_failure_db svc now email code db :
  success (snd (verifyOTPCode svc now email code db)) = false ->
  fst (verifyOTPCode svc now email code db) = db.
Proof.
  unfold verifyOTPCode.
  destruct (OTPCode.findOne _ _ _ _); [|reflexivity].
  destruct (User.findOne _ _); [|reflexivity].
  destruct (negb _); [reflexivity|discriminate].
Qed.

(** The verifications of a list of guesses, each at its instant. *)
Lemma failed_guesses_db svc email guesses :
  forall db,
    Forall (fun g => success (snd (verifyOTPCode svc (fst g) email (snd g) db)) = false)
           guesses ->
    run svc (map (fun g => (fst g, VerifyCode email (snd g))) guesses) db = db.
Proof.
  induction guesses as [|[t c] l IH]; intros db H; [reflexivity|].
  inversion H as [|? ? H1 H2]; subst. cbn [map run step fst snd] in *.
  rewrite (verifyOTPCode_failure_db _ _ _ _ _ H1). now apply IH.
Qed.

(** X22: a failed verification leaves no trace.  Whenever [verifyOTPCode]
    does not log in (wrong or dead code, unknown or inactive user) the
    database is exactly as before: nothing is counted and nothing is
    locked.  So after any number of failed guesses for an email, a call
    answers what it would have answered without them; the right code still
    logs in. *)
Theorem failed_verification_leaves_no_trace :
  forall svc email guesses db now code,
    Forall (fun g => success (snd (verifyOTPCode svc (fst g) email (snd g) db)) = false)
           guesses ->
    run svc (map (fun g => (fst g, VerifyCode email (snd g))) guesses) db = db
    /\ verifyOTPCode svc now email code
         (run svc (map (fun g => (fst g, VerifyCode email (snd g))) guesses) db)
       = verifyOTPCode svc now email code db.
Proof.
  intros svc email guesses db now code H.
  rewrite (failed_guesses_db svc email guesses db H). now split.
Qed.

Lemma failed_verification_leaves_no_trace_witness :
  Forall (fun g => success (snd (verifyOTPCode Sample.svc (fst g) "a@b.rw" (snd g)
                                   Sample.afterSend)) = false) Sample.guesses
  /\ run Sample.svc
       (map (fun g => (fst g, VerifyCode "a@b.rw" (snd g))) Sample.guesses)
       Sample.afterSend = Sample.afterSend
  /\ success (snd (verifyOTPCode Sample.svc 1000 "a@b.rw" "123456" Sample.afterSend))
     = true.
Proof.
  assert (H : Forall (fun g => success (snd (verifyOTPCode Sample.svc (fst g) "a@b.rw"
                                              (snd g) Sample.afterSend)) = false)
                     Sample.guesses)
    by (repeat constructor).
  split; [exact H|]. split; [|vm_compute; reflexivity].
  exact (proj1 (failed_verification_leaves_no_trace Sample.svc "a@b.rw" Sample.guesses
                  Sample.afterSend 1000 "123456" H)).
Defined.

(** ** The digits of a code *)

Ltac digit_cases v H :=
  assert (v = 0 \/ v = 1 \/ v = 2 \/ v = 3 \/ v = 4 \/ v = 5 \/ v = 6 \/ v = 7
          \/ v = 8 \/ v = 9) as H by lia;
  repeat (destruct H as [H|H]; [subst v|]); [..|subst v].

Lemma of_lu_digit v r :
  0 <= v <= 9 ->
  Z.of_N (Unsigned.of_lu (digit v r)) = v + 10 * Z.of_N (Unsigned.of_lu r).
Proof. intros Hv. digit_cases v H; cbn [digit Unsigned.of_lu]; lia. Qed.

Lemma revapp_digit v r acc :
  0 <= v <= 9 -> Decimal.revapp (digit v r) acc = Decimal.revapp r (digit v acc).
Proof. intros Hv. digit_cases v H; reflexivity. Qed.

Lemma unorm_digit v r : 1 <= v <= 9 -> Decimal.unorm (digit v r) = digit v r.
Proof. intros Hv. digit_cases v H; try lia; reflexivity. Qed.

Lemma string_of_leading_digit v r :
  0 <= v <= 9 ->
  NilZero.string_of_uint (digit v r) = String (digitChar v) (NilEmpty.string_of_uint r).
Proof. intros Hv. digit_cases v H; reflexivity. Qed.

Lemma string_of_digit v r :
  0 <= v <= 9 ->
  NilEmpty.string_of_uint (digit v r) = String (digitChar v) (NilEmpty.string_of_uint r).
Proof. intros Hv. digit_cases v H; reflexivity. Qed.

Lemma isDigit_digitChar v : 0 <= v <= 9 -> Js.isDigit (digitChar v) = true.
Proof. intros Hv. digit_cases v H; reflexivity. Qed.

Lemma numberToString_six_digits n :
  100000 <= n <= 999999 -> Js.sixDigits (Js.numberToString n) = true.
Proof.
  intros Hn.
  pose proof (Z.div_mod n 10 ltac:(lia)) as E1.
  pose proof (Z.mod_pos_bound n 10 ltac:(lia)) as B1.
  pose proof (Z.div_mod (n / 10) 10 ltac:(lia)) as E2.
  pose proof (Z.mod_pos_bound (n / 10) 10 ltac:(lia)) as B2.
  pose proof (Z.div_mod (n / 10 / 10) 10 ltac:(lia)) as E3.
  pose proof (Z.mod_pos_bound (n / 10 / 10) 10 ltac:(lia)) as B3.
  pose proof (Z.div_mod (n / 10 / 10 / 10) 10 ltac:(lia)) as E4.
  pose proof (Z.mod_pos_bound (n / 10 / 10 / 10) 10 ltac:(lia)) as B4.
  pose proof (Z.div_mod (n / 10 / 10 / 10 / 10) 10 ltac:(lia)) as E5.
  pose proof (Z.mod_pos_bound (n / 10 / 10 / 10 / 10) 10 ltac:(lia)) as B5.
  set (q1 := n / 10) in *. set (d0 := n mod 10) in *.
  set (q2 := q1 / 10) in *. set (d1 := q1 mod 10) in *.
  set (q3 := q2 / 10) in *. set (d2 := q2 mod 10) in *.
  set (q4 := q3 / 10) in *. set (d3 := q3 mod 10) in *.
  set (d5 := q4 / 10) in *. set (d4 := q4 mod 10) in *.
  clearbody q1 d0 q2 d1 q3 d2 q4 d3 d5 d4.
  assert (H5 : 1 <= d5 <= 9) by lia.
  set (L := digit d0 (digit d1 (digit d2 (digit d3 (digit d4 (digit d5 Decimal.Nil)))))).
  assert (HL : Z.of_N (Unsigned.of_lu L) = n).
  { subst L. rewrite !of_lu_digit by lia. cbn [Unsigned.of_lu]. lia. }
  destruct n as [|p|p]; try lia.
  assert (Hp : Unsigned.of_lu L = N.pos p) by lia.
  pose proof (Unsigned.to_of (Decimal.rev L)) as Hto.
  rewrite Unsigned.of_lu_rev, Hp in Hto. cbn [N.to_uint] in Hto.
  unfold Js.numberToString. cbn [Z.to_int NilZero.string_of_int]. rewrite Hto.
  subst L. unfold Decimal.rev. rewrite !revapp_digit by lia. cbn [Decimal.revapp].
  rewrite unorm_digit by lia. rewrite string_of_leading_digit by lia.
  rewrite !string_of_digit by lia. cbn [NilEmpty.string_of_uint].
  unfold Js.sixDigits. cbn [list_ascii_of_string List.length Nat.eqb forallb andb].
  rewrite !isDigit_digitChar by lia. reflexivity.
Qed.

Lemma to_int_proper n : Z.to_int n <> Decimal.Pos Decimal.Nil
                        /\ Z.to_int n <> Decimal.Neg Decimal.Nil.
Proof.
  destruct n as [|p|p]; cbn [Z.to_int]; split; try discriminate;
    intros [= H]; exact (Unsigned.to_uint_nonnil p H).
Qed.

Lemma numberToString_inj n m : Js.numberToString n = Js.numberToString m -> n = m.
Proof.
  unfold Js.numberToString. intros H. apply DecimalZ.to_int_inj.
  destruct (to_int_proper n) as [Hn1 Hn2], (to_int_proper m) as [Hm1 Hm2].
  pose proof (NilZero.isi _ Hn1 Hn2) as En. pose proof (NilZero.isi _ Hm1 Hm2) as Em.
  rewrite H in En. congruence.
Qed.

(** X23: the code [Math.floor(100000 + Math.random() * 900000).toString()]
    produces is, for every draw in range, a string of exactly six decimal
    digits, so it passes the schema's [/^[0-9]{6}$/]; and different draws
    give different codes. *)
Theorem generateCode_six_digits :
  forall k,
    0 <= k < 900000 ->
    Js.sixDigits (generateCode k) = true
    /\ (forall k', generateCode k' = generateCode k -> k' = k).
Proof.
  intros k Hk. unfold generateCode. split.
  - apply numberToString_six_digits. lia.
  - intros k' H. apply numberToString_inj in H. lia.
Qed.

Lemma generateCode_six_digits_witness :
  0 <= 23456 < 900000 /\ Js.sixDigits (generateCode 23456) = true.
Proof.
  assert (H : 0 <= 23456 < 900000) by lia.
  split; [exact H|]. exact (proj1 (generateCode_six_digits 23456 H)).
Defined.

(** X24: [sendOTPCode] does not fail for want of a valid code.  For a known,
    active user, an email that is not blank, a draw in range and a clock
    within the range of [Date], it succeeds: the new code is stored, unconsumed,
    expiring five minutes later, and is the only unconsumed code of that
    email. *)
Theorem sendOTPCode_succeeds :
  forall now k email db u,
    User.findOne (Js.toLowerCase email) (users db) = Some u ->
    u_status u = active ->
    castEmail email <> "" ->
    0 <= k < 900000 ->
    Js.validDate (now + 5 * 60 * 1000) = true ->
    snd (sendOTPCode now k email db)
    = Ok {| o_success := true; o_message := "OTP code sent to your email address" |}
    /\ pendingCodes email (fst (sendOTPCode now k email db))
       = [{| otp_id := nextId db; otp_email := castEmail email;
             otp_code := generateCode k; otp_expiresAt := now + 5 * 60 * 1000;
             otp_verified := false; otp_createdAt := now |}].
Proof.
  intros now k email db u Hu Hs He Hk Hd.
  assert (Hv : OTPCode.valid
                 (OTPCode.create (nextId db) email (generateCode k)
                    (now + 5 * 60 * 1000) now) = true).
  { unfold OTPCode.valid. cbn [otp_email otp_code otp_expiresAt OTPCode.create].
    rewrite Hd. unfold generateCode. rewrite numberToString_six_digits by lia.
    destruct (String.eqb_spec (castEmail email) ""); [contradiction|reflexivity]. }
  assert (E : sendOTPCode now k email db
              = (insertOtpCode
                   (OTPCode.create (nextId db) email (generateCode k)
                      (now + 5 * 60 * 1000) now)
                   (setOtpCodes (OTPCode.deleteMany email (otpCodes db)) db),
                 Ok {| o_success := true;
                       o_message := "OTP code sent to your email address" |})).
  { unfold sendOTPCode. rewrite Hu, Hs. cbn [Status_eqb negb nextId setOtpCodes].
    now rewrite Hv. }
  rewrite E. cbn [fst snd]. split; [reflexivity|].
  unfold pendingCodes. cbn [otpCodes setOtpCodes insertOtpCode].
  rewrite filter_app, deleteMany_no_pending. cbn [filter app].
  unfold OTPCode.pending at 1. cbn [otp_email otp_verified OTPCode.create].
  now rewrite String.eqb_refl.
Qed.

Lemma sendOTPCode_succeeds_witness :
  User.findOne (Js.toLowerCase "a@b.rw") (users (emptyDb [Sample.alice])) = Some Sample.alice
  /\ u_status Sample.alice = active
  /\ castEmail "a@b.rw" <> ""
  /\ 0 <= 23456 < 900000
  /\ Js.validDate (0 + 5 * 60 * 1000) = true
  /\ snd (sendOTPCode 0 23456 "a@b.rw" (emptyDb [Sample.alice]))
     = Ok {| o_success := true; o_message := "OTP code sent to your email address" |}.
Proof.
  assert (H1 : User.findOne (Js.toLowerCase "a@b.rw") (users (emptyDb [Sample.alice]))
               = Some Sample.alice) by (vm_compute; reflexivity).
  assert (H2 : u_status Sample.alice = active) by reflexivity.
  assert (H3 : castEmail "a@b.rw" <> "") by (vm_compute; discriminate).
  assert (H4 : 0 <= 23456 < 900000) by lia.
  assert (H5 : Js.validDate (0 + 5 * 60 * 1000) = true) by (vm_compute; reflexivity).
  split; [exact H1|]. split; [exact H2|]. split; [exact H3|].
  split; [exact H4|]. split; [exact H5|].
  exact (proj1 (sendOTPCode_succeeds 0 23456 "a@b.rw" (emptyDb [Sample.alice])
                  Sample.alice H1 H2 H3 H4 H5)).
Defined.

(** ** The handlers and the logout route *)

(** While the handler of [POST /api/auth/send-code] waits between its own
    lookup and the service's, an administrator deactivates Alice: the
    service refuses and the handler answers 400. *)
Lemma sendOTPCodeHandler_deactivated_meanwhile :
  sendOTPCodeHandler 1000 777 "a@b.rw" Sample.afterSend Sample.afterDeactivation
  = (Sample.afterDeactivation,
     Ok (reply 400 false "Account is inactive. Please contact administrator.")).
Proof. vm_compute. reflexivity. Qed.

(** X25: the handler of [POST /api/auth/send-code] looks the user up itself
    ([db]) before the service does so again ([later]).  When its own lookup
    finds no user under the lower-cased email it answers 404 'No account
    found with this email address'; when the user found is not active,
    403 'Account is inactive. Please contact administrator.'; in both cases
    the service is not called and nothing is written.  When the user found
    is active the service runs and the database becomes what the service
    makes of [later]: the answer is 200 'OTP code sent to your email
    address' when the service succeeds, 400 with the service's message when
    the service no longer finds the user or finds it inactive (nothing is
    written then), and the exception 'Failed to send OTP code' otherwise.
    The handler answers 200 exactly when its own check passes and the
    service reports success; and when no other request changes the database
    between the two lookups ([later = db]) it never answers 400. *)
Theorem sendOTPCodeHandler_statuses :
  forall now k email db later,
    (User.findOne (Js.toLowerCase email) (users db) = None ->
     sendOTPCodeHandler now k email db later
     = (db, Ok (reply 404 false "No account found with this email address")))
    /\ (forall u,
          User.findOne (Js.toLowerCase email) (users db) = Some u ->
          u_status u <> active ->
          sendOTPCodeHandler now k email db later
          = (db, Ok (reply 403 false
                       "Account is inactive. Please contact administrator.")))
    /\ (forall u,
          User.findOne (Js.toLowerCase email) (users db) = Some u ->
          u_status u = active ->
          fst (sendOTPCodeHandler now k email db later)
          = fst (sendOTPCode now k email later)
          /\ (User.findOne (Js.toLowerCase email) (users later) = None ->
              sendOTPCodeHandler now k email db later
              = (later,
                 Ok (reply 400 false "No account found with this email address")))
          /\ (forall u',
                User.findOne (Js.toLowerCase email) (users later) = Some u' ->
                u_status u' <> active ->
                sendOTPCodeHandler now k email db later
                = (later,
                   Ok (reply 400 false
                         "Account is inactive. Please contact administrator.")))
          /\ (forall u',
                User.findOne (Js.toLowerCase email) (users later) = Some u' ->
                u_status u' = active ->
                (snd (sendOTPCode now k email later)
                 = Ok {| o_success := true;
                         o_message := "OTP code sent to your email address" |}
                 /\ snd (sendOTPCodeHandler now k email db later)
                    = Ok (reply 200 true "OTP code sent to your email address"))
                \/ (snd (sendOTPCode now k email later)
                    = Throw "Failed to send OTP code"
                    /\ snd (sendOTPCodeHandler now k email db later)
                       = Throw "Failed to send OTP code")))
    /\ (forall r,
          snd (sendOTPCodeHandler now k email db later) = Ok r ->
          (status r = 404 \/ status r = 403 \/ status r = 200 \/ status r = 400)
          /\ (status r = 200
              <-> (exists u,
                      User.findOne (Js.toLowerCase email) (users db) = Some u
                      /\ u_status u = active)
                  /\ snd (sendOTPCode now k email later)
                     = Ok {| o_success := true;
                             o_message := "OTP code sent to your email address" |})
          /\ (status r = 404 \/ status r = 403 ->
              fst (sendOTPCodeHandler now k email db later) = db)
          /\ (status r = 400 ->
              fst (sendOTPCodeHandler now k email db later) = later))
    /\ (forall m,
          snd (sendOTPCodeHandler now k email db later) = Throw m ->
          m = "Failed to send OTP code")
    /\ (later = db ->
        forall r,
          snd (sendOTPCodeHandler now k email db later) = Ok r ->
          status r <> 400).
Proof.
  intros now k email db later.
  split; [|split; [|split; [|split; [|split]]]].
  - intros Hu. unfold sendOTPCodeHandler. now rewrite Hu.
  - intros u Hu Hs. unfold sendOTPCodeHandler. rewrite Hu.
    destruct (Status_eqb (u_status u) active) eqn:E; [|reflexivity].
    apply Status_eqb_active in E. contradiction.
  - intros u Hu Hs. unfold sendOTPCodeHandler. rewrite Hu, Hs.
    cbn [Status_eqb negb]. unfold sendOTPCode.
    destruct (User.findOne (Js.toLowerCase email) (users later)) as [u'|].
    + destruct (Status_eqb (u_status u') active) eqn:E; cbn [negb].
      * destruct (OTPCode.valid _); cbn.
        -- split; [reflexivity|]. split; [discriminate|].
           split; [intros v Hv Hn; injection Hv as <-;
                   apply Status_eqb_active in E; contradiction|].
           intros v _ _. left. now split.
        -- split; [reflexivity|]. split; [discriminate|].
           split; [intros v Hv Hn; injection Hv as <-;
                   apply Status_eqb_active in E; contradiction|].
           intros v _ _. right. now split.
      * cbn. split; [reflexivity|]. split; [discriminate|].
        split; [reflexivity|].
        intros v Hv Ha. injection Hv as <-.
        apply Status_eqb_active in Ha. congruence.
    + cbn. split; [reflexivity|]. split; [reflexivity|].
      split; discriminate.
  - intros r. unfold sendOTPCodeHandler.
    destruct (User.findOne (Js.toLowerCase email) (users db)) as [u|] eqn:Hu.
    + destruct (Status_eqb (u_status u) active) eqn:E; cbn [negb].
      * apply Status_eqb_active in E. unfold sendOTPCode.
        destruct (User.findOne (Js.toLowerCase email) (users later)) as [u'|].
        -- destruct (negb (Status_eqb (u_status u') active)).
           ++ cbn. intros H. injection H as <-. cbn.
              split; [auto|]. split; [split; [lia|intros [_ H]; discriminate]|].
              split; [lia|reflexivity].
           ++ destruct (OTPCode.valid _); cbn; [|discriminate].
              intros H. injection H as <-. cbn.
              split; [auto|]. split; [split; [|reflexivity]|].
              ** intros _. split; [exists u; auto|reflexivity].
              ** split; [lia|discriminate].
        -- cbn. intros H. injection H as <-. cbn.
           split; [auto|]. split; [split; [lia|intros [_ H]; discriminate]|].
           split; [lia|reflexivity].
      * cbn. intros H. injection H as <-. cbn.
        split; [auto|]. split; [split; [lia|]|].
        -- intros [(v & Hv & Ha) _]. injection Hv as <-.
           apply Status_eqb_active in Ha. congruence.
        -- split; [reflexivity|lia].
    + cbn. intros H. injection H as <-. cbn.
      split; [auto|]. split; [split; [lia|]|].
      * intros [(v & Hv & _) _]. discriminate.
      * split; [reflexivity|lia].
  - intros m. unfold sendOTPCodeHandler, sendOTPCode.
    destruct (User.findOne (Js.toLowerCase email) (users db)) as [u|];
      [|discriminate].
    destruct (negb (Status_eqb (u_status u) active)); [discriminate|].
    destruct (User.findOne (Js.toLowerCase email) (users later)) as [u'|];
      [|discriminate].
    destruct (negb (Status_eqb (u_status u') active)); [discriminate|].
    destruct (OTPCode.valid _); cbn; [discriminate|].
    intros H. now injection H as <-.
  - intros -> r. unfold sendOTPCodeHandler, sendOTPCode.
    destruct (User.findOne (Js.toLowerCase email) (users db)) as [u|].
    + destruct (negb (Status_eqb (u_status u) active)).
      * intros H. injection H as <-. cbn. lia.
      * destruct (OTPCode.valid _); cbn; [|discriminate].
        intros H. injection H as <-. cbn. lia.
    + intros H. injection H as <-. cbn. lia.
Qed.

(** The handler of [POST /api/auth/verify-code] answers 200 exactly
    when [verifyOTPCode] succeeds, with the access token and the user in
    the body, and 401 in every other case (bad code, unknown user and
    inactive account alike), token and user absent; what it does to the
    database is what the service does. *)
Lemma verifyOTPCodeHandler_statuses :
  forall svc now email code db,
    fst (verifyOTPCodeHandler svc now email code db)
    = fst (verifyOTPCode svc now email code db)
    /\ (status (snd (verifyOTPCodeHandler svc now email code db)) = 200
        \/ status (snd (verifyOTPCodeHandler svc now email code db)) = 401)
    /\ (status (snd (verifyOTPCodeHandler svc now email code db)) = 200
        <-> success (snd (verifyOTPCode svc now email code db)) = true)
    /\ (status (snd (verifyOTPCodeHandler svc now email code db)) = 200 ->
        exists u,
          body_token (snd (verifyOTPCodeHandler svc now email code db))
          = Some (generateAccessToken svc now u)
          /\ body_user (snd (verifyOTPCodeHandler svc now email code db)) = Some u)
    /\ (status (snd (verifyOTPCodeHandler svc now email code db)) = 401 ->
        body_token (snd (verifyOTPCodeHandler svc now email code db)) = None
        /\ body_user (snd (verifyOTPCodeHandler svc now email code db)) = None).
Proof.
  intros svc now email code db. unfold verifyOTPCodeHandler.
  destruct (verifyOTPCode svc now email code db) as [db' r] eqn:E.
  destruct (success r) eqn:Hs; cbn [fst snd status body_token body_user reply].
  - destruct (verifyOTPCode_success_inv _ _ _ _ _ _ _ E Hs) as (d & u & H1 & H2 & H3).
    rewrite (verifyOTPCode_login svc now email code db d u H1 H2 H3) in E.
    inversion E; subst; clear E. cbn [token user].
    split; [reflexivity|]. split; [now left|]. split; [now split|].
    split; [intros _; now exists (touchLogin now u)|discriminate].
  - rewrite Hs. split; [reflexivity|]. split; [now right|].
    split; [split; [discriminate|discriminate]|].
    split; [discriminate|now split].
Qed.

Lemma logoutRoute_ok svc now t db :
  status (snd (logoutRoute svc now (Bearer t) db)) = 200 ->
  o_success (snd (logout now t db)) = true
  /\ fst (logoutRoute svc now (Bearer t) db) = fst (logout now t db)
  /\ exists u, authenticate svc now (Bearer t) db = Next u.
Proof.
  unfold logoutRoute.
  destruct (authenticate svc now (Bearer t) db) as [st m|u] eqn:Ea.
  - unfold authenticate in Ea.
    destruct (isTokenBlacklisted now t db); [injection Ea as <- <-; discriminate|].
    destruct (verifyAccessToken svc now t); [|injection Ea as <- <-; discriminate].
    destruct (User.findById _ _); [|injection Ea as <- <-; discriminate].
    destruct (negb _); [injection Ea as <- <-; discriminate|discriminate].
  - unfold logoutHandler. destruct (logout now t db) as [db' r].
    cbn [fst snd]. destruct (o_success r); cbn [fst snd status reply];
      [|discriminate].
    intros _. split; [reflexivity|]. split; [reflexivity|]. now exists u.
Qed.

(** X26: over the route [POST /api/auth/logout], which runs [authenticate]
    before the handler, logging out is not repeatable: once a request
    bearing a token has been answered 200, a second request bearing the
    same token, made while the token still verifies, is stopped by
    [authenticate] with 401 'Token has been revoked' and changes nothing. *)
Theorem logout_route_second_request_refused :
  forall svc now later t db p,
    blacklistFaithful db ->
    status (snd (logoutRoute svc now (Bearer t) db)) = 200 ->
    Jwt.verify t (jwtSecret svc) later = Ok p ->
    logoutRoute svc later (Bearer t) (fst (logoutRoute svc now (Bearer t) db))
    = (fst (logoutRoute svc now (Bearer t) db),
       reply 401 false "Token has been revoked").
Proof.
  intros svc now later t db p Hf H200 Hv.
  destruct (logoutRoute_ok svc now t db H200) as (Hs & -> & _).
  pose proof Hs as Hr. apply logout_success_revocable in Hr as (e & (p' & Hp' & He) & _).
  assert (Hpp : p' = p /\ later / 1000 < e).
  { destruct t as [raw|k q]; [discriminate|]. cbn [Jwt.decode] in Hp'.
    injection Hp' as ->. unfold Jwt.verify in Hv.
    destruct (negb (k =? jwtSecret svc)%string); [discriminate|].
    rewrite He in Hv. destruct (Z.leb_spec e (later / 1000)); [discriminate|].
    injection Hv as ->. now split. }
  destruct Hpp as [-> Hl].
  assert (Hb : isTokenBlacklisted later t (run svc [] (fst (logout now t db))) = true).
  { apply (logout_blacklists svc now t db [] later e Hf Hs).
    - now exists p.
    - now apply expiry_in_future.
    - constructor. }
  cbn [run] in Hb. unfold logoutRoute, authenticate. now rewrite Hb.
Qed.

Lemma logout_route_second_request_refused_witness :
  blacklistFaithful Sample.afterLogin
  /\ status (snd (logoutRoute Sample.svc 2000 (Bearer Sample.accessToken)
                    Sample.afterLogin)) = 200
  /\ Jwt.verify Sample.accessToken (jwtSecret Sample.svc) 3000 = Ok Sample.accessPayload
  /\ logoutRoute Sample.svc 3000 (Bearer Sample.accessToken)
       (fst (logoutRoute Sample.svc 2000 (Bearer Sample.accessToken) Sample.afterLogin))
     = (fst (logoutRoute Sample.svc 2000 (Bearer Sample.accessToken) Sample.afterLogin),
        reply 401 false "Token has been revoked").
Proof.
  assert (H1 : blacklistFaithful Sample.afterLogin) by (vm_compute; constructor).
  assert (H2 : status (snd (logoutRoute Sample.svc 2000 (Bearer Sample.accessToken)
                              Sample.afterLogin)) = 200) by (vm_compute; reflexivity).
  assert (H3 : Jwt.verify Sample.accessToken (jwtSecret Sample.svc) 3000
               = Ok Sample.accessPayload) by (vm_compute; reflexivity).
  split; [exact H1|]. split; [exact H2|]. split; [exact H3|].
  exact (logout_route_second_request_refused Sample.svc 2000 3000 Sample.accessToken
           Sample.afterLogin Sample.accessPayload H1 H2 H3).
Defined.

(** X27: [checkPermission(resource, action)] answers 401 to a request
    without a user and lets an administrator through on everything.  A
    citizen passes exactly for the six pairs [canAccess] grants; for any
    other pair the answer is 403 with the message 'Permission denied for
    <action> on <resource>', unless the resource is named like an inherited
    property, where the exception of [canAccess] escapes. *)
Theorem checkPermission_decides :
  forall resource action u,
    checkPermission resource (Some action) None
      = Ok (Refuse 401 "Authentication required")
    /\ (u_role u = admin -> checkPermission resource (Some action) (Some u) = Ok Continue)
    /\ (u_role u = citizen ->
        (checkPermission resource (Some action) (Some u) = Ok Continue
         <-> In (resource, action) citizenMay)
        /\ (~ In (resource, action) citizenMay -> ~ In resource inheritedKeys ->
            checkPermission resource (Some action) (Some u)
            = Ok (Refuse 403 ("Permission denied for " ++ action ++ " on " ++ resource)%string)))
    /\ checkPermission resource None (Some u) = checkPermission resource (Some "read") (Some u).
Proof.
  intros resource action u. split; [reflexivity|]. split; [|split; [|reflexivity]].
  - intros H. unfold checkPermission. now rewrite (canAccess_admin u resource _ H).
  - intros H. unfold checkPermission.
    destruct (canAccess u resource (Some action)) as [[|]|m] eqn:E.
    + pose proof (canAccess_citizen_true u resource action H E) as Hin.
      split; [now split|]. intros Hn. contradiction.
    + split.
      * split; [discriminate|]. intros Hin.
        rewrite (canAccess_citizen_may u resource action H Hin) in E. discriminate.
      * reflexivity.
    + pose proof (canAccess_citizen_throws u resource _ m H E) as Hi. split.
      * split; [discriminate|]. intros Hin.
        rewrite (canAccess_citizen_may u resource action H Hin) in E. discriminate.
      * intros _ Hn. contradiction.
Qed.
